(** * Bus cleaning control: the event ingestion path

    A shallow embedding of [backend/app/api/events.py] (the [create_event]
    and [analyze_image] endpoints with [_generate_suggestions]) and of the
    shared types of [frontend/src/types] ([CleaningState], [CleaningEvent],
    [Alert]), followed by the properties of the ingestion pipeline.

    Conventions.
    - A timestamp ([datetime]) is a [Z]: milliseconds since the epoch.
    - A Python [float] confidence is a rational [Q]; only its order is used.
    - A database table is the list of its rows in insertion order; a serial
      primary key is drawn from a counter kept next to the table.
    - An [async def] body runs to completion; [await] is sequencing.
    - Whatever the outside world decides during one request (the clock,
      whether a commit, the WebSocket manager or a send raises) is read from
      an [Env] record, so that every behaviour of the request is a value of
      the model. *)

From Stdlib Require Import ZArith QArith List String Ascii Bool Lia DecimalString.
From Stdlib Require Import Sorted.
Import ListNotations.

Local Open Scope Z_scope.
Local Open Scope string_scope.

(** ** Shared types (frontend/src/types, mirrored by the backend models) *)

(** [export enum CleaningState { CLEAN = 'clean', DIRTY = 'dirty', UNCERTAIN = 'uncertain' }] *)
Inductive CleaningState : Type := CLEAN | DIRTY | UNCERTAIN.

Definition CleaningState_value (s : CleaningState) : string :=
  match s with
  | CLEAN => "clean"
  | DIRTY => "dirty"
  | UNCERTAIN => "uncertain"
  end.

Definition CleaningState_eqb (a b : CleaningState) : bool :=
  match a, b with
  | CLEAN, CLEAN | DIRTY, DIRTY | UNCERTAIN, UNCERTAIN => true
  | _, _ => false
  end.

(** [origen: 'edge' | 'server' | 'manual'] *)
Inductive Origen : Type := EDGE | SERVER | MANUAL.

(** [tipo: 'repetido' | 'muy_sucio' | 'dudoso_recurrente']: the three alert
    kinds (repeated dirty, very dirty, recurrent uncertain). *)
Inductive AlertTipo : Type := REPETIDO | MUY_SUCIO | DUDOSO_RECURRENTE.

Definition AlertTipo_value (t : AlertTipo) : string :=
  match t with
  | REPETIDO => "repetido"
  | MUY_SUCIO => "muy_sucio"
  | DUDOSO_RECURRENTE => "dudoso_recurrente"
  end.

Definition AlertTipo_eqb (a b : AlertTipo) : bool :=
  match a, b with
  | REPETIDO, REPETIDO | MUY_SUCIO, MUY_SUCIO
  | DUDOSO_RECURRENTE, DUDOSO_RECURRENTE => true
  | _, _ => false
  end.

(** [nivel: 'info' | 'warn' | 'critical'] *)
Inductive AlertNivel : Type := INFO | WARN | CRITICAL.

Definition AlertNivel_value (n : AlertNivel) : string :=
  match n with
  | INFO => "info"
  | WARN => "warn"
  | CRITICAL => "critical"
  end.

Module Bus.
Record t : Type := mk
  { id : Z; ppu : string; alias : option string; activo : bool;
    created_at : Z }.
End Bus.

(** [export enum UserRole { ADMIN = 'ADMIN', SUP = 'SUP', OPER = 'OPER' }] *)
Inductive UserRole : Type := ADMIN | SUP | OPER.

Module User.
Record t : Type := mk
  { id : Z; nombre : string; email : string; rol : UserRole; activo : bool;
    created_at : Z }.
End User.

(** [issues?: { issues?: string[]; suggestions?: string[] }] *)
Module Issues.
Record t : Type := mk
  { issues : option (list string); suggestions : option (list string) }.
End Issues.

(** The request body of [POST /events]: the fields [create_event] reads. *)
Module CleaningEventCreate.
Record t : Type := mk
  { bus_id : Z;
    estado : CleaningState;
    confidence : option Q;
    observaciones : option string;
    imagen_thumb_url : option string;
    origen : Origen;
    issues : option Issues.t }.
End CleaningEventCreate.

Module CleaningEvent.
Record t : Type := mk
  { id : Z;
    bus_id : Z;
    user_id : Z;
    estado : CleaningState;
    confidence : option Q;
    observaciones : option string;
    imagen_thumb_url : option string;
    origen : Origen;
    issues : option Issues.t;
    created_at : Z }.
End CleaningEvent.

Module Alert.
Record t : Type := mk
  { id : Z;
    bus_id : Z;
    tipo : AlertTipo;
    nivel : AlertNivel;
    detalle : string;
    created_at : Z;
    resolved_by : option Z;
    resolved_at : option Z }.
End Alert.

(** ** JSON values: the dictionaries handed to [manager.broadcast] *)

#[warnings="-register-all"] Inductive JValue : Type :=
| JNull
| JInt (z : Z)
| JFloat (q : Q)
| JStr (s : string)
| JDict (d : list (string * JValue)).

Definition dict_get (k : string) (v : JValue) : option JValue :=
  match v with
  | JDict d =>
      match find (fun kv => String.eqb (fst kv) k) d with
      | Some kv => Some (snd kv)
      | None => None
      end
  | _ => None
  end.

Definition dict_keys (v : JValue) : list string :=
  match v with
  | JDict d => map fst d
  | _ => []
  end.

Definition JOptFloat (c : option Q) : JValue :=
  match c with
  | Some q => JFloat q
  | None => JNull
  end.

(** ** Exceptions and outcomes *)

Inductive Exception : Type :=
| HTTPException (status_code : Z) (detail : string)
| Error (message : string).

Definition HTTP_404_NOT_FOUND : Z := 404.

(** [str(e)], as interpolated by the f-strings of the handlers. *)
Definition str (e : Exception) : string :=
  match e with
  | HTTPException c d => NilZero.string_of_int (Z.to_int c) ++ ": " ++ d
  | Error m => m
  end.

Inductive Outcome (A : Type) : Type :=
| Return (a : A)
| Raise (e : Exception).
Arguments Return {A} a.
Arguments Raise {A} e.

(** ** The world of one request *)

Module AlertStore.
Record t : Type := mk { alerts : list Alert.t; next_id : Z }.
End AlertStore.

Module DB.
Record t : Type := mk
  { buses : list Bus.t;
    cleaning_events : list CleaningEvent.t;
    next_event_id : Z;
    alert_store : AlertStore.t }.
End DB.

(** What [create_event] does to the outside, in the order it does it. *)
Inductive Effect : Type :=
| SelectBus (bus_id : Z)
| Commit (event : CleaningEvent.t)
| Broadcast (message : JValue)
| CheckAlerts (bus_id : Z) (event : CleaningEvent.t)
| Print (line : string).

Module World.
Record t : Type := mk { db : DB.t; trace : list Effect }.
End World.

Inductive ConnectionManager : Type := WebSocketManager.

Module Env.
Record t : Type := mk
  { (** the clock read when the event row is built *)
    utcnow : Z;
    (** [session.commit()] or [session.refresh(event)] raising: the message
        of the exception that ends the persist step *)
    commit_error : option string;
    (** when the persist step raises: whether it is [session.refresh(event)]
        that raises, after [session.commit()] has made the row durable *)
    raised_by_refresh : bool;
    (** [from app.main import get_websocket_manager] or the call raising *)
    get_websocket_manager_error : option string;
    (** [manager.broadcast(message)] raising on that message *)
    broadcast_error : JValue -> option string;
    (** the clock read by the alert rules *)
    alert_now : Z;
    (** the alert table refusing to persist an alert of that kind *)
    alert_create_error : AlertTipo -> option string }.
End Env.

(** ** A state and exception monad for endpoint bodies *)

Definition M (A : Type) : Type := World.t -> World.t * Outcome A.

Definition ret {A} (a : A) : M A := fun w => (w, Return a).

Definition raise {A} (e : Exception) : M A := fun w => (w, Raise e).

Definition bind {A B} (c : M A) (k : A -> M B) : M B :=
  fun w =>
    match c w with
    | (w1, Return a) => k a w1
    | (w1, Raise e) => (w1, Raise e)
    end.

Notation "x <- c1 ;; c2" := (bind c1 (fun x => c2))
  (at level 61, c1 at next level, right associativity).
Notation "c1 ;; c2" := (bind c1 (fun _ => c2))
  (at level 61, right associativity).

(** [try: body  except Exception as e: handler e] *)
Definition try_except {A} (body : M A) (handler : Exception -> M A) : M A :=
  fun w =>
    match body w with
    | (w1, Return a) => (w1, Return a)
    | (w1, Raise e) => handler e w1
    end.

(** [for x in xs: body x] *)
Fixpoint for_each {A} (xs : list A) (body : A -> M unit) : M unit :=
  match xs with
  | [] => ret tt
  | x :: rest => body x ;; for_each rest body
  end.

Definition emit (e : Effect) : M unit :=
  fun w => (World.mk (World.db w) (World.trace w ++ [e]), Return tt).

Definition get_db : M DB.t := fun w => (w, Return (World.db w)).

Definition put_db (d : DB.t) : M unit :=
  fun w => (World.mk d (World.trace w), Return tt).

(** [print(line)] *)
Definition print (line : string) : M unit := emit (Print line).

(** ** Database session operations used by [create_event] *)

(** [session.execute(select(Bus).where(Bus.id == bus_id))] *)
Definition select_bus (bus_id : Z) : M (list Bus.t) :=
  emit (SelectBus bus_id) ;;
  d <- get_db ;;
  ret (filter (fun b => (Bus.id b =? bus_id)%Z) (DB.buses d)).

(** [result.scalar_one_or_none()]: no row is [None], one row is that row,
    more rows raise [MultipleResultsFound]. *)
Definition scalar_one_or_none {A} (rows : list A) : M (option A) :=
  match rows with
  | [] => ret None
  | [r] => ret (Some r)
  | _ => raise (Error "Multiple rows were found when one or none was required")
  end.

(** [session.add(event); await session.commit(); await session.refresh(event)]:
    when [session.commit()] raises nothing is stored; otherwise the row
    receives its serial id and is appended to the table, and
    [session.refresh(event)] may still raise after that. *)
Definition add_commit_refresh (env : Env.t)
    (row : Z -> CleaningEvent.t) : M CleaningEvent.t :=
  match Env.commit_error env, Env.raised_by_refresh env with
  | Some m, false => raise (Error m)
  | refresh_error, _ =>
      d <- get_db ;;
      let event := row (DB.next_event_id d) in
      put_db (DB.mk (DB.buses d)
                    (DB.cleaning_events d ++ [event])
                    (DB.next_event_id d + 1)
                    (DB.alert_store d)) ;;
      emit (Commit event) ;;
      match refresh_error with
      | Some m => raise (Error m)
      | None => ret event
      end
  end.

(** [manager = get_websocket_manager()] *)
Definition get_websocket_manager (env : Env.t) : M ConnectionManager :=
  match Env.get_websocket_manager_error env with
  | Some m => raise (Error m)
  | None => ret WebSocketManager
  end.

(** [await manager.broadcast(message)] *)
Definition broadcast (env : Env.t) (manager : ConnectionManager)
    (message : JValue) : M unit :=
  emit (Broadcast message) ;;
  match Env.broadcast_error env message with
  | Some m => raise (Error m)
  | None => ret tt
  end.

(** Reading the local variable [manager], which is unbound when the first
    [try] block failed before assigning it. *)
Definition load_manager (manager : option ConnectionManager)
  : M ConnectionManager :=
  match manager with
  | Some m => ret m
  | None =>
      raise (Error
        "cannot access local variable 'manager' where it is not associated with a value")
  end.

(** ** The notification payloads built by [create_event] *)

Section CreateEvent.

(** [datetime.isoformat()] *)
Variable isoformat : Z -> string.

(** [alert_service.check_and_create_alerts(session, bus.id, event)]: it
    reads the event table, owns the alert table, and returns the alerts
    it created or raises. *)
Variable check_and_create_alerts :
  Env.t -> list CleaningEvent.t -> AlertStore.t -> Z -> CleaningEvent.t ->
  AlertStore.t * Outcome (list Alert.t).

Definition event_created_message (event : CleaningEvent.t) (bus : Bus.t)
    (current_user : User.t) : JValue :=
  JDict
    [ ("type", JStr "event.created");
      ("data", JDict
         [ ("id", JInt (CleaningEvent.id event));
           ("bus_id", JInt (CleaningEvent.bus_id event));
           ("bus_ppu", JStr (Bus.ppu bus));
           ("user_nombre", JStr (User.nombre current_user));
           ("estado", JStr (CleaningState_value (CleaningEvent.estado event)));
           ("confidence", JOptFloat (CleaningEvent.confidence event));
           ("created_at", JStr (isoformat (CleaningEvent.created_at event))) ]) ].

Definition alert_created_message (alert : Alert.t) (bus : Bus.t) : JValue :=
  JDict
    [ ("type", JStr "alert.created");
      ("data", JDict
         [ ("id", JInt (Alert.id alert));
           ("bus_id", JInt (Alert.bus_id alert));
           ("bus_ppu", JStr (Bus.ppu bus));
           ("tipo", JStr (AlertTipo_value (Alert.tipo alert)));
           ("nivel", JStr (AlertNivel_value (Alert.nivel alert)));
           ("detalle", JStr (Alert.detalle alert)) ]) ].

(** The call of the alert service inside the session. *)
Definition call_check_and_create_alerts (env : Env.t) (bus_id : Z)
    (event : CleaningEvent.t) : M (list Alert.t) :=
  emit (CheckAlerts bus_id event) ;;
  d <- get_db ;;
  let '(store, out) :=
    check_and_create_alerts env (DB.cleaning_events d) (DB.alert_store d)
                            bus_id event in
  put_db (DB.mk (DB.buses d) (DB.cleaning_events d)
                (DB.next_event_id d) store) ;;
  match out with
  | Return alerts => ret alerts
  | Raise e => raise e
  end.

(** ** [create_event] *)

(** [CleaningEvent(bus_id=event_data.bus_id, user_id=current_user.id, ...)],
    with the id and the creation time it has once committed and
    refreshed. *)
Definition new_cleaning_event (env : Env.t)
    (event_data : CleaningEventCreate.t) (current_user : User.t)
    (new_id : Z) : CleaningEvent.t :=
  CleaningEvent.mk new_id
    (CleaningEventCreate.bus_id event_data)
    (User.id current_user)
    (CleaningEventCreate.estado event_data)
    (CleaningEventCreate.confidence event_data)
    (CleaningEventCreate.observaciones event_data)
    (CleaningEventCreate.imagen_thumb_url event_data)
    (CleaningEventCreate.origen event_data)
    (CleaningEventCreate.issues event_data)
    (Env.utcnow env).

Definition create_event (env : Env.t)
    (event_data : CleaningEventCreate.t) (current_user : User.t)
  : M CleaningEvent.t :=
  (* Verify bus exists *)
  bus_result <- select_bus (CleaningEventCreate.bus_id event_data) ;;
  bus <- scalar_one_or_none bus_result ;;
  match bus with
  | None => raise (HTTPException HTTP_404_NOT_FOUND "Bus not found")
  | Some bus =>
      (* Create event *)
      event <- add_commit_refresh env
                 (new_cleaning_event env event_data current_user) ;;
      (* Trigger WebSocket notification.  The single [try] of the source
         is split where [manager] gets bound: a failure before the
         assignment leaves it unbound, a failure of the send does not. *)
      manager <- try_except
                   (m <- get_websocket_manager env ;; ret (Some m))
                   (fun e =>
                      print ("Error broadcasting event: " ++ str e) ;;
                      ret None) ;;
      match manager with
      | Some m =>
          try_except
            (broadcast env m (event_created_message event bus current_user))
            (fun e => print ("Error broadcasting event: " ++ str e))
      | None => ret tt
      end ;;
      (* Check and create alerts if needed *)
      try_except
        (alerts <- call_check_and_create_alerts env (Bus.id bus) event ;;
         match alerts with
         | [] => ret tt
         | _ =>
             for_each alerts (fun alert =>
               m <- load_manager manager ;;
               broadcast env m (alert_created_message alert bus))
         end)
        (fun e => print ("Error checking alerts: " ++ str e)) ;;
      ret event
  end.

(** ** The effects of a request, stage by stage

    The trace [create_event] leaves behind, written as a function of the
    environment; [create_event_found] below shows that the endpoint
    produces exactly this trace. *)

(** The local variable [manager] after the first [try] block. *)
Definition bound_manager (env : Env.t) : option ConnectionManager :=
  match Env.get_websocket_manager_error env with
  | Some _ => None
  | None => Some WebSocketManager
  end.

(** The first [try] block: the [event.created] notification. *)
Definition notify_event_trace (env : Env.t) (message : JValue)
  : list Effect :=
  match Env.get_websocket_manager_error env with
  | Some m => [Print ("Error broadcasting event: " ++ m)]
  | None =>
      Broadcast message ::
      match Env.broadcast_error env message with
      | Some m => [Print ("Error broadcasting event: " ++ m)]
      | None => []
      end
  end.

(** The loop over the created alerts, with [manager] bound. *)
Fixpoint notify_alerts_trace (env : Env.t) (bus : Bus.t)
    (alerts : list Alert.t) : list Effect :=
  match alerts with
  | [] => []
  | alert :: rest =>
      Broadcast (alert_created_message alert bus) ::
      match Env.broadcast_error env (alert_created_message alert bus) with
      | Some m => [Print ("Error checking alerts: " ++ m)]
      | None => notify_alerts_trace env bus rest
      end
  end.

(** The second [try] block, after the call of the alert service. *)
Definition check_alerts_trace (env : Env.t) (bus : Bus.t)
    (out : Outcome (list Alert.t)) : list Effect :=
  match out with
  | Raise e => [Print ("Error checking alerts: " ++ str e)]
  | Return [] => []
  | Return alerts =>
      match Env.get_websocket_manager_error env with
      | Some _ =>
          [Print ("Error checking alerts: " ++
            "cannot access local variable 'manager' where it is not associated with a value")]
      | None => notify_alerts_trace env bus alerts
      end
  end.

(** The whole trace of a request whose bus was found and whose event was
    committed. *)
Definition request_trace (env : Env.t) (bus : Bus.t)
    (current_user : User.t) (event : CleaningEvent.t)
    (out : Outcome (list Alert.t)) : list Effect :=
  ([SelectBus (CleaningEvent.bus_id event); Commit event]
   ++ notify_event_trace env (event_created_message event bus current_user)
   ++ CheckAlerts (Bus.id bus) event :: check_alerts_trace env bus out)%list.

End CreateEvent.

(** Running an endpoint body on a database, from an empty trace. *)
Definition run_request {A} (c : M A) (d : DB.t) : World.t * Outcome A :=
  c (World.mk d []).

(** [GET /events/{event_id}] reduced to its query: the rows with that id. *)
Definition get_event (event_id : Z) (d : DB.t) : list CleaningEvent.t :=
  filter (fun e => (CleaningEvent.id e =? event_id)%Z) (DB.cleaning_events d).

(** ** [POST /ai/analyze] and [_generate_suggestions] *)

(** [needle in haystack] on Python strings. *)
Fixpoint contains (needle haystack : string) : bool :=
  if String.prefix needle haystack then true
  else match haystack with
       | EmptyString => false
       | String _ rest => contains needle rest
       end.

(** An instance of [str.lower] for ASCII text, used in worked examples. *)
Definition ascii_lower_char (c : ascii) : ascii :=
  let n := nat_of_ascii c in
  if ((65 <=? n) && (n <=? 90))%nat then ascii_of_nat (n + 32) else c.

Fixpoint ascii_lower (s : string) : string :=
  match s with
  | EmptyString => EmptyString
  | String c rest => String (ascii_lower_char c) (ascii_lower rest)
  end.

Module AnalysisResponse.
Record t : Type := mk
  { estado : CleaningState;
    confidence : Q;
    issues : list string;
    suggestions : list string }.
End AnalysisResponse.

Definition HTTP_500_INTERNAL_SERVER_ERROR : Z := 500.

Section Analyze.

(** [str.lower], a builtin (the Unicode case mapping). *)
Variable lower : string -> string.

(** [ml_service.analyze_image(request.image_base64)] *)
Variable ml_analyze_image :
  string -> Outcome (CleaningState * Q * list string).

(** The branch taken for one issue in the loop body. *)
Definition suggestion_for (issue : string) : string :=
  if contains "papel" (lower issue) || contains "basura" (lower issue) then
    "Recoger y desechar basura del piso y asientos"
  else if contains "ventana" (lower issue) || contains "cristal" (lower issue) then
    "Limpiar ventanas con pa침o y limpiador de cristales"
  else if contains "mancha" (lower issue) then
    "Aplicar limpiador y frotar manchas con pa침o"
  else if contains "polvo" (lower issue) then
    "Pasar pa침o seco o aspirar superficies con polvo"
  else if contains "pasamano" (lower issue) then
    "Limpiar pasamanos con desinfectante"
  else
    "Revisar y limpiar 치rea afectada".

(** The [for issue in issues] loop, appending to [suggestions]. *)
Fixpoint suggestions_loop (issues : list string) (suggestions : list string)
  : list string :=
  match issues with
  | [] => suggestions
  | issue :: rest => suggestions_loop rest (suggestions ++ [suggestion_for issue])
  end.

Definition _generate_suggestions (issues : list string) : list string :=
  let suggestions := suggestions_loop issues [] in
  (* Add general suggestion if no specific ones *)
  match suggestions with
  | [] => suggestions ++ ["Realizar limpieza general del bus"]
  | _ => suggestions
  end.

Definition analyze_image (image_base64 : string)
  : Outcome AnalysisResponse.t :=
  match ml_analyze_image image_base64 with
  | Return (state, confidence, issues) =>
      let suggestions := _generate_suggestions issues in
      Return (AnalysisResponse.mk state confidence issues suggestions)
  | Raise e =>
      Raise (HTTPException HTTP_500_INTERNAL_SERVER_ERROR
               ("Error analyzing image: " ++ str e))
  end.

End Analyze.

(** ** The alert service

    [backend/app/services/alert_service.py] is called by [create_event] but
    lives outside the files embedded above; the definitions of this
    module follow the written specification of the rule engine and of the
    alert store. *)

Module AlertService.

(** Modelled from the spec: the configuration surface of the rule engine
    (window duration in milliseconds, dirty-repeat threshold,
    uncertain-repeat threshold, high-confidence bound, minimum issue count
    for a very dirty bus) and the human-readable detail of each kind, all
    of them inputs of [alert_service]. *)
Record Settings : Type := mkSettings
  { window_duration : Z;
    dirty_threshold : nat;
    uncertain_threshold : nat;
    high_confidence : Q;
    min_issue_count : nat;
    detail_text : AlertTipo -> string }.

(** Modelled from the spec: the defaults of [alert_service]'s settings,
    72 hours, 2, 3, 0.65 and 2. *)
Definition default_settings (detail : AlertTipo -> string) : Settings :=
  mkSettings (72 * 3600 * 1000) 2 3 (65 # 100) 2 detail.

(** Modelled from the spec: an alert proposed by a rule of
    [alert_service], before it is persisted. *)
Record Proposal : Type := mkProposal
  { kind : AlertTipo; severity : AlertNivel; detail : string }.

(** Modelled from the spec: the event store query [recentEventsForBus]
    used by [alert_service], all events of the bus with creation timestamp
    at or after the bound, oldest first (the table order). *)
Definition recentEventsForBus (events : list CleaningEvent.t)
    (busId sinceTimestamp : Z) : list CleaningEvent.t :=
  filter (fun e => (CleaningEvent.bus_id e =? busId)%Z
                   && (sinceTimestamp <=? CleaningEvent.created_at e)%Z)
         events.

(** Modelled from the spec: the trailing window of [alert_service], the
    half-open interval from [now - window_duration] (excluded) to [now]
    (included). *)
Definition in_window (s : Settings) (now ts : Z) : bool :=
  (now - window_duration s <? ts)%Z && (ts <=? now)%Z.

(** Modelled from the spec: the history [alert_service] evaluates its
    counting rules on, read through [recentEventsForBus] and cut to the
    window. *)
Definition window_events (s : Settings) (now : Z)
    (events : list CleaningEvent.t) (busId : Z) : list CleaningEvent.t :=
  filter (fun e => in_window s now (CleaningEvent.created_at e))
         (recentEventsForBus events busId (now - window_duration s)).

(** Modelled from the spec: the rule-window count of [alert_service], the
    number of events of one state in the window. *)
Definition window_count (s : Settings) (now : Z)
    (events : list CleaningEvent.t) (busId : Z) (st : CleaningState) : nat :=
  List.length (filter (fun e => CleaningState_eqb (CleaningEvent.estado e) st)
                 (window_events s now events busId)).

(** Modelled from the spec: the detected-issue count of an event, read by
    the very dirty rule of [alert_service]; an absent list counts as
    empty. *)
Definition issue_count (event : CleaningEvent.t) : nat :=
  match CleaningEvent.issues event with
  | Some i =>
      match Issues.issues i with
      | Some l => List.length l
      | None => 0%nat
      end
  | None => 0%nat
  end.

(** Modelled from the spec: the test "confidence at least the
    high-confidence bound" of [alert_service]; an absent confidence does
    not pass. *)
Definition confident (s : Settings) (event : CleaningEvent.t) : bool :=
  match CleaningEvent.confidence event with
  | Some c => Qle_bool (high_confidence s) c
  | None => false
  end.

(** Modelled from the spec: the repeated dirty rule of [alert_service]. *)
Definition rule_repeated_dirty (s : Settings) (now : Z)
    (events : list CleaningEvent.t) (busId : Z) : option Proposal :=
  if (dirty_threshold s <=? window_count s now events busId DIRTY)%nat
  then Some (mkProposal REPETIDO WARN (detail_text s REPETIDO))
  else None.

(** Modelled from the spec: the very dirty rule of [alert_service]. *)
Definition rule_very_dirty (s : Settings) (event : CleaningEvent.t)
  : option Proposal :=
  if CleaningState_eqb (CleaningEvent.estado event) DIRTY
     && confident s event
     && (min_issue_count s <=? issue_count event)%nat
  then Some (mkProposal MUY_SUCIO CRITICAL (detail_text s MUY_SUCIO))
  else None.

(** Modelled from the spec: the recurrent uncertain rule of
    [alert_service]. *)
Definition rule_recurrent_uncertain (s : Settings) (now : Z)
    (events : list CleaningEvent.t) (busId : Z) : option Proposal :=
  if (uncertain_threshold s <=? window_count s now events busId UNCERTAIN)%nat
  then Some (mkProposal DUDOSO_RECURRENTE INFO (detail_text s DUDOSO_RECURRENTE))
  else None.

(** Modelled from the spec: collecting the proposals of the rules of
    [alert_service] that fired. *)
Definition fired (rules : list (option Proposal)) : list Proposal :=
  flat_map (fun r => match r with Some p => [p] | None => [] end) rules.

(** Modelled from the spec: the rule engine of [alert_service], three
    independent rules evaluated in the order of the rule table, each
    giving at most one proposal. *)
Definition evaluate (s : Settings) (now : Z) (events : list CleaningEvent.t)
    (busId : Z) (event : CleaningEvent.t) : list Proposal :=
  fired [ rule_repeated_dirty s now events busId;
          rule_very_dirty s event;
          rule_recurrent_uncertain s now events busId ].

(** Modelled from the spec: an alert of [alert_service]'s table is
    unresolved until a resolution timestamp is set. *)
Definition unresolved (a : Alert.t) : bool :=
  match Alert.resolved_at a with
  | None => true
  | Some _ => false
  end.

(** Modelled from the spec: the unresolved alerts of one kind for one bus
    in [alert_service]'s table. *)
Definition unresolved_of (busId : Z) (k : AlertTipo) (a : Alert.t) : bool :=
  (Alert.bus_id a =? busId)%Z && AlertTipo_eqb (Alert.tipo a) k && unresolved a.

(** Modelled from the spec: the alert store query [hasUnresolved] of
    [alert_service]. *)
Definition hasUnresolved (store : AlertStore.t) (busId : Z) (k : AlertTipo)
  : bool :=
  existsb (unresolved_of busId k) (AlertStore.alerts store).

(** Modelled from the spec: the alert store operation [create] of
    [alert_service], which assigns id and timestamp, or fails with a
    storage error and stores nothing. *)
Definition create (env : Env.t) (store : AlertStore.t) (busId : Z)
    (p : Proposal) : AlertStore.t * Outcome Alert.t :=
  match Env.alert_create_error env (kind p) with
  | Some m => (store, Raise (Error m))
  | None =>
      let a := Alert.mk (AlertStore.next_id store) busId (kind p)
                        (severity p) (detail p) (Env.alert_now env)
                        None None in
      (AlertStore.mk (AlertStore.alerts store ++ [a])
                     (AlertStore.next_id store + 1),
       Return a)
  end.

(** Modelled from the spec: the persistence loop of [alert_service], each
    proposal checked against the unresolved alerts of its kind for the bus
    and suppressed if one exists, otherwise persisted on its own; a
    storage error ends the loop. *)
Fixpoint persist (env : Env.t) (busId : Z) (ps : list Proposal)
    (store : AlertStore.t) : AlertStore.t * Outcome (list Alert.t) :=
  match ps with
  | [] => (store, Return [])
  | p :: rest =>
      if hasUnresolved store busId (kind p) then persist env busId rest store
      else
        match create env store busId p with
        | (store1, Raise e) => (store1, Raise e)
        | (store1, Return a) =>
            match persist env busId rest store1 with
            | (store2, Return created) => (store2, Return (a :: created))
            | (store2, Raise e) => (store2, Raise e)
            end
        end
  end.

(** Modelled from the spec: [alert_service.check_and_create_alerts], the
    rule engine run on the history that includes the new event, followed
    by the persistence of the proposals that are not suppressed. *)
Definition check_and_create_alerts (s : Settings) (env : Env.t)
    (events : list CleaningEvent.t) (store : AlertStore.t) (busId : Z)
    (event : CleaningEvent.t) : AlertStore.t * Outcome (list Alert.t) :=
  persist env busId (evaluate s (Env.alert_now env) events busId event) store.

(** Modelled from the spec: the explicit resolve operation on
    [alert_service]'s table (an external collaborator), which records the
    resolver and the resolution timestamp on the alert with that id. *)
Definition resolve (alert_id resolver ts : Z) (store : AlertStore.t)
  : AlertStore.t :=
  AlertStore.mk
    (map (fun a =>
            if (Alert.id a =? alert_id)%Z
            then Alert.mk (Alert.id a) (Alert.bus_id a) (Alert.tipo a)
                          (Alert.nivel a) (Alert.detalle a)
                          (Alert.created_at a) (Some resolver) (Some ts)
            else a)
         (AlertStore.alerts store))
    (AlertStore.next_id store).



(** Modelled from the spec: the number of unresolved alerts of one kind
    for one bus in [alert_service]'s table. *)
Definition count_unresolved (busId : Z) (k : AlertTipo) (store : AlertStore.t)
  : nat :=
  List.length (filter (unresolved_of busId k) (AlertStore.alerts store)).

End AlertService.

(** ** Sequences of operations on the stored state *)

Inductive Operation : Type :=
| Submit (env : Env.t) (event_data : CleaningEventCreate.t) (current_user : User.t)
| Resolve (alert_id resolver ts : Z).

Section Ingestion.

Variable isoformat : Z -> string.
Variable settings : AlertService.Settings.

(** [create_event] wired to the alert service. *)
Definition submit (env : Env.t) (event_data : CleaningEventCreate.t)
    (current_user : User.t) : M CleaningEvent.t :=
  create_event isoformat (AlertService.check_and_create_alerts settings)
               env event_data current_user.

Definition apply_operation (d : DB.t) (op : Operation) : DB.t :=
  match op with
  | Submit env event_data current_user =>
      World.db (fst (run_request (submit env event_data current_user) d))
  | Resolve alert_id resolver ts =>
      DB.mk (DB.buses d) (DB.cleaning_events d) (DB.next_event_id d)
            (AlertService.resolve alert_id resolver ts (DB.alert_store d))
  end.

Definition apply_operations (ops : list Operation) (d : DB.t) : DB.t :=
  fold_left apply_operation ops d.

End Ingestion.

(** At most one unresolved alert per bus and kind. *)
Definition at_most_one_unresolved (store : AlertStore.t) : Prop :=
  forall busId k, (AlertService.count_unresolved busId k store <= 1)%nat.


(** The effects of a trace that are broadcasts. *)
Definition is_broadcast (e : Effect) : bool :=
  match e with
  | Broadcast _ => true
  | _ => false
  end.

Definition is_check_alerts (e : Effect) : bool :=
  match e with
  | CheckAlerts _ _ => true
  | _ => false
  end.

(** Every broadcast of the trace comes after a call of the alert service. *)
Definition no_broadcast_before_alert_check (t : list Effect) : Prop :=
  forall before m after,
    t = (before ++ Broadcast m :: after)%list ->
    existsb is_check_alerts before = true.

Definition broadcasts (t : list Effect) : list JValue :=
  flat_map (fun e => match e with Broadcast m => [m] | _ => [] end) t.

(** The broadcasts of the trace are one [event.created] message followed by
    one [alert.created] message per alert of [created], in order. *)
Definition event_then_one_message_per_alert (event_message : JValue)
    (bus : Bus.t) (created : list Alert.t) (t : list Effect) : Prop :=
  broadcasts t
  = event_message :: map (fun alert => alert_created_message alert bus) created.

(** ** Sample data for worked runs *)

Module Sample.

Definition isoformat (ts : Z) : string := NilZero.string_of_int (Z.to_int ts).

Definition settings : AlertService.Settings :=
  AlertService.default_settings AlertTipo_value.

Definition bus7 : Bus.t := Bus.mk 7 "ABCD12" None true 0.

Definition ana : User.t := User.mk 3 "Ana" "ana@example.org" OPER true 0.

Definition db0 : DB.t := DB.mk [bus7] [] 1 (AlertStore.mk [] 1).

(** An environment in which nothing raises. *)
Definition quiet (now : Z) : Env.t :=
  Env.mk now None false None (fun _ => None) now (fun _ => None).

(** An environment in which the WebSocket manager cannot be obtained. *)
Definition no_manager (now : Z) : Env.t :=
  Env.mk now None false (Some "No module named 'app.main'") (fun _ => None)
         now (fun _ => None).

(** An environment in which the alert table and every send raise. *)
Definition failing (now : Z) : Env.t :=
  Env.mk now None false None (fun _ => Some "send timed out") now
         (fun _ => Some "alert table unavailable").

Definition three_issues : option Issues.t :=
  Some (Issues.mk (Some ["papel en el piso"; "mancha"; "polvo"]) None).

Definition request (bus_id : Z) (estado : CleaningState) (confidence : Q)
  : CleaningEventCreate.t :=
  CleaningEventCreate.mk bus_id estado (Some confidence) None None MANUAL
                         three_issues.

Definition event_at (ts : Z) (estado : CleaningState) : CleaningEvent.t :=
  CleaningEvent.mk 1 7 3 estado (Some (80 # 100)) None None MANUAL
                   three_issues ts.

(** The same inspection reported with confidence 0.50. *)
Definition unsure_event_at (ts : Z) : CleaningEvent.t :=
  CleaningEvent.mk 1 7 3 DIRTY (Some (50 # 100)) None None MANUAL
                   three_issues ts.

End Sample.

(** ** [GET /events] and [GET /events/{event_id}]

    The two read endpoints of the events router.  They read the event and
    bus tables of the database and the user table, which is passed next to
    it. *)

Module EventsRouter.

(** One row of [select(CleaningEvent, Bus, User)]. *)
Definition Row : Type := (CleaningEvent.t * Bus.t * User.t)%type.

(** [{**event.__dict__, "bus_ppu": bus.ppu, "user_nombre": user.nombre}] *)
Record CleaningEventResponse : Type := mkResponse
  { event : CleaningEvent.t; bus_ppu : string; user_nombre : string }.

Definition build_response (row : Row) : CleaningEventResponse :=
  let '(event, bus, user) := row in
  mkResponse event (Bus.ppu bus) (User.nombre user).

(** [select(CleaningEvent, Bus, User)
       .join(Bus, CleaningEvent.bus_id == Bus.id)
       .join(User, CleaningEvent.user_id == User.id)]: the inner joins. *)
Definition select_joined (d : DB.t) (users : list User.t) : list Row :=
  flat_map
    (fun event =>
       flat_map
         (fun bus =>
            map (fun user => (event, bus, user))
                (filter (fun user =>
                           (CleaningEvent.user_id event =? User.id user)%Z)
                        users))
         (filter (fun bus => (CleaningEvent.bus_id event =? Bus.id bus)%Z)
                 (DB.buses d)))
    (DB.cleaning_events d).

Definition created_at (row : Row) : Z :=
  CleaningEvent.created_at (fst (fst row)).

(** [order_by(CleaningEvent.created_at.desc())], as a stable insertion
    sort: rows with equal timestamps stay in table order. *)
Fixpoint insert_desc (row : Row) (sorted : list Row) : list Row :=
  match sorted with
  | [] => [row]
  | x :: rest =>
      if (created_at x <=? created_at row)%Z then row :: sorted
      else x :: insert_desc row rest
  end.

Definition order_by_created_at_desc (rows : list Row) : list Row :=
  fold_right insert_desc [] rows.

(** The query parameters of [list_events].  FastAPI validates
    [skip >= 0] and [1 <= limit <= 100] before the body runs. *)
Record Params : Type := mkParams
  { from_date : option Z;
    to_date : option Z;
    ppu : option string;
    estado : option CleaningState;
    operario_id : option Z;
    skip : Z;
    limit : Z }.

(** The defaults: no filter, [skip = 0], [limit = 100]. *)
Definition default_params : Params :=
  mkParams None None None None None 0 100.

Section ListEvents.

(** [column.ilike(pattern)] of the database: [ilike value pattern]. *)
Variable ilike : string -> string -> bool.

(** The [# Apply filters] block: each [if param:] adds a [where]. *)
Definition apply_filters (p : Params) (query : list Row) : list Row :=
  let query :=
    match from_date p with
    | Some from_date =>
        filter (fun row => (from_date <=? created_at row)%Z) query
    | None => query
    end in
  let query :=
    match to_date p with
    | Some to_date =>
        filter (fun row => (created_at row <=? to_date)%Z) query
    | None => query
    end in
  let query :=
    match ppu p with
    | Some EmptyString => query
    | Some ppu =>
        filter (fun row => ilike (Bus.ppu (snd (fst row))) ("%" ++ ppu ++ "%"))
               query
    | None => query
    end in
  let query :=
    match estado p with
    | Some estado =>
        filter (fun row =>
                  CleaningState_eqb (CleaningEvent.estado (fst (fst row))) estado)
               query
    | None => query
    end in
  let query :=
    match operario_id p with
    | Some 0%Z => query
    | Some operario_id =>
        filter (fun row =>
                  (CleaningEvent.user_id (fst (fst row)) =? operario_id)%Z)
               query
    | None => query
    end in
  query.

(** What the filters of [p] ask of a row: a parameter that is absent, an
    empty [ppu] or an [operario_id] of zero asks nothing. *)
Definition satisfies (p : Params) (row : Row) : Prop :=
  (forall bound, from_date p = Some bound -> bound <= created_at row)
  /\ (forall bound, to_date p = Some bound -> created_at row <= bound)
  /\ (forall text, ppu p = Some text -> text <> "" ->
                   ilike (Bus.ppu (snd (fst row))) ("%" ++ text ++ "%") = true)
  /\ (forall state, estado p = Some state ->
                    CleaningEvent.estado (fst (fst row)) = state)
  /\ (forall operator, operario_id p = Some operator -> operator <> 0 ->
                       CleaningEvent.user_id (fst (fst row)) = operator).

Definition list_events (p : Params) (d : DB.t) (users : list User.t)
  : list CleaningEventResponse :=
  let query := apply_filters p (select_joined d users) in
  (* Order and paginate *)
  let rows :=
    firstn (Z.to_nat (limit p))
           (skipn (Z.to_nat (skip p)) (order_by_created_at_desc query)) in
  (* Build response with joined data *)
  map build_response rows.

End ListEvents.

(** Newest first: no later row is newer than an earlier one. *)
Definition newest_first_rows : Row -> Row -> Prop :=
  fun a b => created_at b <= created_at a.

Definition newest_first : CleaningEventResponse -> CleaningEventResponse -> Prop :=
  fun a b =>
    CleaningEvent.created_at (event b) <= CleaningEvent.created_at (event a).

Definition HTTP_404 : Exception :=
  HTTPException HTTP_404_NOT_FOUND "Event not found".

(** [result.first()]: the first row or [None]. *)
Definition first {A} (rows : list A) : option A :=
  match rows with
  | [] => None
  | row :: _ => Some row
  end.

Definition get_event (event_id : Z) (d : DB.t) (users : list User.t)
  : Outcome CleaningEventResponse :=
  let row :=
    first (filter (fun row => (CleaningEvent.id (fst (fst row)) =? event_id)%Z)
                  (select_joined d users)) in
  match row with
  | None => Raise HTTP_404
  | Some row => Return (build_response row)
  end.

End EventsRouter.

(** ** Sample tables for worked queries *)

Module Fleet.

Definition bus9 : Bus.t := Bus.mk 9 "WXYZ99" (Some "turno noche") true 0.

Definition luis : User.t := User.mk 4 "Luis" "luis@example.org" OPER true 0.

Definition users : list User.t := [Sample.ana; luis].

Definition inspection (id bus_id user_id : Z) (estado : CleaningState)
    (ts : Z) : CleaningEvent.t :=
  CleaningEvent.mk id bus_id user_id estado (Some (80 # 100)) None None EDGE
                   None ts.

(** Three inspections of known buses and one whose bus row is gone. *)
Definition db : DB.t :=
  DB.mk [Sample.bus7; bus9]
        [ inspection 1 7 3 DIRTY 1000;
          inspection 2 9 4 CLEAN 3000;
          inspection 3 7 4 UNCERTAIN 2000;
          inspection 4 99 3 DIRTY 4000 ]
        5
        (AlertStore.mk [] 1).

(** A stand-in for the database's [ILIKE] on patterns of the form
    [%text%]: is [text] inside the value, letter case aside. *)
Definition ilike (value pattern : string) : bool :=
  contains (ascii_lower (substring 1 (String.length pattern - 2) pattern))
           (ascii_lower value).

End Fleet.

(** [needle] occurs somewhere inside [haystack]. *)
Definition has_substring (needle haystack : string) : Prop :=
  exists before after, haystack = before ++ needle ++ after.

(** ** The web client

    The handlers of the React pages and of the auth store, as functions on
    the component state.  A call of the API client is an [Outcome]: the
    response data, or the exception axios throws. *)

(** [error.response?.data?.detail]: an HTTP error carries the [detail] of
    the backend's [HTTPException]; any other failure has none. *)
Definition response_detail (error : Exception) : option string :=
  match error with
  | HTTPException _ detail => Some detail
  | Error _ => None
  end.

(** [value || fallback] on a string that may be undefined: the empty
    string is falsy too. *)
Definition or_else (value : option string) (fallback : string) : string :=
  match value with
  | Some EmptyString => fallback
  | Some s => s
  | None => fallback
  end.

Module DashboardPage.

Record Stats : Type := mkStats
  { total : nat; clean : nat; dirty : nat; uncertain : nat }.

Record State : Type := mkState
  { events : list EventsRouter.CleaningEventResponse;
    loading : bool;
    stats : Stats }.

(** The [useState] initial values. *)
Definition initial : State := mkState [] true (mkStats 0 0 0 0).

(** [data.filter(e => e.estado === value).length] *)
Definition count_estado (value : string)
    (data : list EventsRouter.CleaningEventResponse) : nat :=
  List.length
    (filter (fun e =>
               String.eqb
                 (CleaningState_value
                    (CleaningEvent.estado (EventsRouter.event e)))
                 value)
            data).

(** The query string of [api.get('/events?limit=50')]. *)
Definition fetch_params : EventsRouter.Params :=
  EventsRouter.mkParams None None None None None 0 50.

(** [fetchEvents], given what [api.get] gave; the second component is what
    went to [console.error]. *)
Definition fetchEvents
    (response : Outcome (list EventsRouter.CleaningEventResponse))
    (st : State) : State * list string :=
  match response with
  | Return data =>
      (* Calculate stats *)
      let clean := count_estado "clean" data in
      let dirty := count_estado "dirty" data in
      let uncertain := count_estado "uncertain" data in
      (mkState data false (mkStats (List.length data) clean dirty uncertain),
       [])
  | Raise error =>
      (mkState (events st) false (stats st),
       ["Error fetching events: " ++ str error])
  end.

(** [getStateBadge]: the class and the text of the badge. *)
Definition getStateBadge (state : string) : string * string :=
  if String.eqb state "clean" then ("badge badge-success", "Limpio")
  else if String.eqb state "dirty" then ("badge badge-danger", "Sucio")
  else if String.eqb state "uncertain" then ("badge badge-warning", "Dudoso")
  else ("badge badge-info", state).

End DashboardPage.

Module InspectionPage.

(** The state the submit handler reads and writes. *)
Record State : Type := mkState
  { selectedBusId : option Z;
    analysis : option AnalysisResponse.t;
    observations : string;
    submitting : bool }.

(** [!selectedBusId]: [null] and [0] are falsy. *)
Definition no_bus (selectedBusId : option Z) : bool :=
  match selectedBusId with
  | None => true
  | Some id => (id =? 0)%Z
  end.

(** The body of [api.post('/events', {...})]. *)
Definition event_body (bus_id : Z) (analysis : AnalysisResponse.t)
    (observations : string) : CleaningEventCreate.t :=
  CleaningEventCreate.mk
    bus_id
    (AnalysisResponse.estado analysis)
    (Some (AnalysisResponse.confidence analysis))
    (match observations with EmptyString => None | s => Some s end)
    None
    EDGE
    (Some (Issues.mk (Some (AnalysisResponse.issues analysis))
                     (Some (AnalysisResponse.suggestions analysis)))).

Record Result : Type := mkResult
  { state : State;
    alerts : list string;
    posted : list CleaningEventCreate.t }.

(** [submitEvent], given how [api.post] answers a body. *)
Definition submitEvent (api_post : CleaningEventCreate.t -> Outcome unit)
    (st : State) : Result :=
  match selectedBusId st, analysis st with
  | Some bus_id, Some found =>
      if no_bus (selectedBusId st) then
        mkResult st ["Selecciona un bus y espera el análisis"] []
      else
        let body := event_body bus_id found (observations st) in
        match api_post body with
        | Return _ =>
            mkResult (mkState (selectedBusId st) None "" false)
                     ["Registro enviado exitosamente"] [body]
        | Raise error =>
            mkResult (mkState (selectedBusId st) (analysis st)
                              (observations st) false)
                     [or_else (response_detail error) "Error al enviar registro"]
                     [body]
        end
  | _, _ => mkResult st ["Selecciona un bus y espera el análisis"] []
  end.

(** [getBadgeClass] *)
Definition getBadgeClass (state : string) : string :=
  if String.eqb state "clean" then "badge badge-success"
  else if String.eqb state "dirty" then "badge badge-danger"
  else if String.eqb state "uncertain" then "badge badge-warning"
  else "badge badge-info".

End InspectionPage.

Module AuthStore.

Record LoginCredentials : Type := mkCredentials
  { email : string; password : string }.

Record TokenResponse : Type := mkTokens
  { access_token : string; refresh_token : string; token_type : string }.

Record State : Type := mkState
  { user : option User.t;
    accessToken : option string;
    refreshToken : option string;
    isAuthenticated : bool }.

(** The store together with the header it keeps on the API client,
    [api.defaults.headers.common['Authorization']]. *)
Record Store : Type := mkStore
  { state : State; authorization : option string }.

Definition initial_state : State := mkState None None None false.

(** The store of the first page load, with an empty storage. *)
Definition initial : Store := mkStore initial_state None.

(** [login], given what [api.post('/auth/login', credentials)] gave and the
    clock read by [new Date()]. *)
Definition login (credentials : LoginCredentials)
    (response : Outcome TokenResponse) (now : Z) (s : Store)
  : Store * Outcome unit :=
  match response with
  | Raise error => (s, Raise error)
  | Return data =>
      let user := User.mk 1 "Admin" (email credentials) ADMIN true now in
      (mkStore (mkState (Some user)
                        (Some (access_token data))
                        (Some (refresh_token data))
                        true)
               (Some ("Bearer " ++ access_token data)),
       Return tt)
  end.

Definition logout (s : Store) : Store :=
  mkStore (mkState None None None false) None.

Definition setUser (u : User.t) (s : Store) : Store :=
  mkStore (mkState (Some u) (accessToken (state s)) (refreshToken (state s))
                   (isAuthenticated (state s)))
          (authorization s).

(** [partialize]: the part of the state the [persist] middleware writes to
    the [auth-storage] entry after every change. *)
Definition partialize (st : State) : State :=
  mkState (user st) (accessToken st) (refreshToken st) (isAuthenticated st).

(** The store a page load creates, [create(persist(...))]: the initial
    state overwritten by what the storage entry holds, if there is one.
    The API client of the new page has no default header; nothing in the
    store sets one on rehydration. *)
Definition rehydrate (persisted : option State) : Store :=
  match persisted with
  | Some st =>
      mkStore (mkState (user st) (accessToken st) (refreshToken st)
                       (isAuthenticated st))
              None
  | None => mkStore initial_state None
  end.

(** Reloading the page: the storage entry holds the last state written. *)
Definition reload (s : Store) : Store :=
  rehydrate (Some (partialize (state s))).

Inductive Action : Type :=
| Login (credentials : LoginCredentials) (response : Outcome TokenResponse)
        (now : Z)
| Logout
| SetUser (u : User.t)
| Reload.

Definition dispatch (s : Store) (a : Action) : Store :=
  match a with
  | Login credentials response now => fst (login credentials response now s)
  | Logout => logout s
  | SetUser u => setUser u s
  | Reload => reload s
  end.

Definition dispatch_all (actions : list Action) (s : Store) : Store :=
  fold_left dispatch actions s.

End AuthStore.

Module App.

Inductive Page : Type := LoginPage | InspectionPage | DashboardPage.

(** What a route's [element] is: a page, inside [Layout] or not, or a
    [Navigate]. *)
Inductive Element : Type :=
| Show (layout : bool) (page : Page)
| Navigate (layout : bool) (to : string).

Section Routes.

(** The router's test of a route path against the location,
    [matchPath pattern pathname].  The four paths of the table are
    distinct static paths, of which a location matches at most one. *)
Variable matchPath : string -> string -> bool.

(** The [Routes] table: the element of the route that matches the
    location, if any. *)
Definition route (isAuthenticated : bool) (pathname : string)
  : option Element :=
  if matchPath "/login" pathname then Some (Show false LoginPage)
  else if matchPath "/" pathname then
    Some (if isAuthenticated then Navigate true "/inspection"
          else Navigate false "/login")
  else if matchPath "/inspection" pathname then
    Some (if isAuthenticated then Show true InspectionPage
          else Navigate false "/login")
  else if matchPath "/dashboard" pathname then
    Some (if isAuthenticated then Show true DashboardPage
          else Navigate false "/login")
  else None.

(** Rendering a location: [Navigate] elements are followed, at most
    [redirects] of them. *)
Fixpoint render (redirects : nat) (isAuthenticated : bool)
    (pathname : string) : option (bool * Page) :=
  match route isAuthenticated pathname with
  | None => None
  | Some (Show layout page) => Some (layout, page)
  | Some (Navigate _ to) =>
      match redirects with
      | O => None
      | S n => render n isAuthenticated to
      end
  end.

End Routes.

End App.

Module LoginPage.

Record State : Type := mkState
  { email : string; password : string; error : string; loading : bool }.

Record Result : Type := mkResult
  { state : State; store : AuthStore.Store; navigated : list string }.

(** [handleSubmit], given what the login request gave. *)
Definition handleSubmit (response : Outcome AuthStore.TokenResponse)
    (now : Z) (st : State) (s : AuthStore.Store) : Result :=
  match AuthStore.login (AuthStore.mkCredentials (email st) (password st))
                        response now s with
  | (s1, Return _) =>
      mkResult (mkState (email st) (password st) "" false) s1 ["/inspection"]
  | (s1, Raise err) =>
      mkResult (mkState (email st) (password st)
                        (or_else (response_detail err) "Error al iniciar sesión")
                        false)
               s1 []
  end.

End LoginPage.

Module Layout.

(** [handleLogout]: [logout()] then [navigate('/login')]. *)
Definition handleLogout (s : AuthStore.Store) : AuthStore.Store * string :=
  (AuthStore.logout s, "/login").

End Layout.

(** Unfolding the monad operations, and nothing else. *)
Ltac run_monad :=
  cbv beta iota delta
    [try_except bind load_manager broadcast emit print ret raise
     get_db put_db World.db World.trace].

(** * Properties *)

(** ** The run of [create_event] *)

Lemma world_eta (w : World.t) : World.mk (World.db w) (World.trace w) = w.
Proof. destruct w; reflexivity. Qed.

Lemma filter_none_of_absent (buses : list Bus.t) (bus_id : Z) :
  (forall b, In b buses -> Bus.id b <> bus_id) ->
  filter (fun b => (Bus.id b =? bus_id)%Z) buses = [].
Proof.
  induction buses as [|b rest IH]; intros Habs; simpl.
  - reflexivity.
  - destruct (Z.eqb_spec (Bus.id b) bus_id) as [Heq|Hne].
    + exfalso. apply (Habs b); [left; reflexivity | exact Heq].
    + apply IH. intros b' Hin. apply Habs. right. exact Hin.
Qed.

Lemma for_each_cons {A} (x : A) (rest : list A) (body : A -> M unit) :
  for_each (x :: rest) body = (body x ;; for_each rest body).
Proof. reflexivity. Qed.

Lemma notify_alerts_run (env : Env.t) (bus : Bus.t) (alerts : list Alert.t) :
  forall w,
    try_except
      (for_each alerts (fun alert =>
         m <- load_manager (Some WebSocketManager) ;;
         broadcast env m (alert_created_message alert bus)))
      (fun e => print ("Error checking alerts: " ++ str e)) w
    = (World.mk (World.db w)
                (World.trace w ++ notify_alerts_trace env bus alerts),
       Return tt).
Proof.
  induction alerts as [|a rest IH]; intros [d t].
  - simpl. rewrite app_nil_r. reflexivity.
  - specialize (IH (World.mk d (t ++ [Broadcast (alert_created_message a bus)]))).
    rewrite for_each_cons. revert IH. 
    change (notify_alerts_trace env bus (a :: rest)) with
      (Broadcast (alert_created_message a bus) ::
        match Env.broadcast_error env (alert_created_message a bus) with
        | Some m => [Print ("Error checking alerts: " ++ m)]
        | None => notify_alerts_trace env bus rest
        end).
    run_monad.
    destruct (Env.broadcast_error env (alert_created_message a bus)) as [m|].
    + intros _. cbv [str]. rewrite <- app_assoc. reflexivity.
    + intros IH. rewrite IH. rewrite <- app_assoc. reflexivity.
Qed.


Lemma bind_Return {A B} (c : M A) (k : A -> M B) w w1 a :
  c w = (w1, Return a) -> bind c k w = k a w1.
Proof. intros H. unfold bind. rewrite H. reflexivity. Qed.

Lemma select_bus_run bus_id w :
  select_bus bus_id w
  = (World.mk (World.db w) (World.trace w ++ [SelectBus bus_id]),
     Return (filter (fun b => (Bus.id b =? bus_id)%Z) (DB.buses (World.db w)))).
Proof. reflexivity. Qed.

Lemma add_commit_refresh_run env row w :
  Env.commit_error env = None ->
  add_commit_refresh env row w
  = (World.mk
       (DB.mk (DB.buses (World.db w))
              (DB.cleaning_events (World.db w) ++ [row (DB.next_event_id (World.db w))])
              (DB.next_event_id (World.db w) + 1)
              (DB.alert_store (World.db w)))
       (World.trace w ++ [Commit (row (DB.next_event_id (World.db w)))]),
     Return (row (DB.next_event_id (World.db w)))).
Proof.
  intros H. unfold add_commit_refresh. rewrite H.
  destruct (Env.raised_by_refresh env); reflexivity.
Qed.

Lemma get_manager_run env w :
  try_except
    (m <- get_websocket_manager env ;; ret (Some m))
    (fun e => print ("Error broadcasting event: " ++ str e) ;; ret None) w
  = (World.mk (World.db w)
       (World.trace w ++
          match Env.get_websocket_manager_error env with
          | Some m => [Print ("Error broadcasting event: " ++ m)]
          | None => []
          end),
     Return (bound_manager env)).
Proof.
  destruct w as [d t].
  unfold bound_manager, get_websocket_manager.
  destruct (Env.get_websocket_manager_error env) as [m|].
  - reflexivity.
  - run_monad. rewrite app_nil_r. reflexivity.
Qed.

Lemma send_event_run env message w :
  match bound_manager env with
  | Some m =>
      try_except (broadcast env m message)
                 (fun e => print ("Error broadcasting event: " ++ str e))
  | None => ret tt
  end w
  = (World.mk (World.db w)
       (World.trace w ++
          match Env.get_websocket_manager_error env with
          | Some _ => []
          | None =>
              Broadcast message ::
              match Env.broadcast_error env message with
              | Some m => [Print ("Error broadcasting event: " ++ m)]
              | None => []
              end
          end),
     Return tt).
Proof.
  destruct w as [d t].
  unfold bound_manager.
  destruct (Env.get_websocket_manager_error env) as [m|].
  - run_monad. rewrite app_nil_r. reflexivity.
  - run_monad.
    destruct (Env.broadcast_error env message) as [m|].
    + cbv [str]. rewrite <- app_assoc. reflexivity.
    + reflexivity.
Qed.

Lemma check_alerts_run svc env bus event w :
  let result := svc env (DB.cleaning_events (World.db w))
                    (DB.alert_store (World.db w)) (Bus.id bus) event in
  try_except
    (alerts <- call_check_and_create_alerts svc env (Bus.id bus) event ;;
     match alerts with
     | [] => ret tt
     | _ =>
         for_each alerts (fun alert =>
           m <- load_manager (bound_manager env) ;;
           broadcast env m (alert_created_message alert bus))
     end)
    (fun e => print ("Error checking alerts: " ++ str e)) w
  = (World.mk
       (DB.mk (DB.buses (World.db w)) (DB.cleaning_events (World.db w))
              (DB.next_event_id (World.db w)) (fst result))
       (World.trace w ++ CheckAlerts (Bus.id bus) event
                      :: check_alerts_trace env bus (snd result)),
     Return tt).
Proof.
  intros result. subst result. destruct w as [d t].
  unfold call_check_and_create_alerts.
  cbv [World.db World.trace].
  destruct (svc env (DB.cleaning_events d) (DB.alert_store d) (Bus.id bus) event)
    as [store [alerts|e]] eqn:Hsvc.
  - cbv [fst snd].
    destruct alerts as [|a rest].
    + run_monad. rewrite Hsvc. reflexivity.
    + unfold check_alerts_trace, bound_manager.
      destruct (Env.get_websocket_manager_error env) as [m|].
      * run_monad. rewrite Hsvc. rewrite for_each_cons. run_monad.
        cbv [str]. rewrite <- app_assoc. reflexivity.
      * pose proof (notify_alerts_run env bus (a :: rest)
                      (World.mk (DB.mk (DB.buses d) (DB.cleaning_events d)
                                       (DB.next_event_id d) store)
                                (t ++ [CheckAlerts (Bus.id bus) event]))) as Hloop.
        revert Hloop. run_monad. rewrite Hsvc. intros Hloop.
        rewrite Hloop. rewrite <- app_assoc. reflexivity.
  - run_monad. rewrite Hsvc. cbv [fst snd check_alerts_trace].
    rewrite <- app_assoc. reflexivity.
Qed.

Lemma create_event_found isoformat svc env event_data current_user d bus :
  filter (fun b => (Bus.id b =? CleaningEventCreate.bus_id event_data)%Z) (DB.buses d) = [bus] ->
  Env.commit_error env = None ->
  let event := new_cleaning_event env event_data current_user (DB.next_event_id d) in
  let result := svc env (DB.cleaning_events d ++ [event])%list (DB.alert_store d) (Bus.id bus) event in
  run_request (create_event isoformat svc env event_data current_user) d
  = (World.mk (DB.mk (DB.buses d) (DB.cleaning_events d ++ [event]) (DB.next_event_id d + 1) (fst result))
              (request_trace isoformat env bus current_user event (snd result)),
     Return event).
Proof.
  intros Hbus Hcommit event result.
  unfold run_request, create_event.
  erewrite bind_Return by apply select_bus_run.
  cbv [World.db World.trace]. rewrite Hbus.
  erewrite bind_Return by reflexivity.
  cbv beta iota.
  erewrite bind_Return by (apply add_commit_refresh_run; exact Hcommit).
  erewrite bind_Return by apply get_manager_run.
  cbv beta.
  erewrite bind_Return by apply send_event_run.
  erewrite bind_Return by apply check_alerts_run.
  cbv [World.db World.trace DB.buses DB.cleaning_events DB.next_event_id DB.alert_store ret].
  fold event. fold result.
  unfold request_trace, notify_event_trace.
  replace (CleaningEvent.bus_id event) with (CleaningEventCreate.bus_id event_data) by reflexivity.
  destruct (Env.get_websocket_manager_error env) as [m|];
    simpl app; repeat rewrite <- app_assoc; reflexivity.
Qed.

Lemma bind_Raise {A B} (c : M A) (k : A -> M B) w w1 e :
  c w = (w1, Raise e) -> bind c k w = (w1, Raise e).
Proof. intros H. unfold bind. rewrite H. reflexivity. Qed.

(** A request whose bus query returns no row. *)
Lemma create_event_no_row isoformat svc env event_data current_user d :
  filter (fun b => (Bus.id b =? CleaningEventCreate.bus_id event_data)%Z)
         (DB.buses d) = [] ->
  run_request (create_event isoformat svc env event_data current_user) d
  = (World.mk d [SelectBus (CleaningEventCreate.bus_id event_data)],
     Raise (HTTPException HTTP_404_NOT_FOUND "Bus not found")).
Proof.
  intros Hrows.
  unfold run_request, create_event.
  erewrite bind_Return by apply select_bus_run.
  cbv [World.db World.trace]. rewrite Hrows.
  erewrite bind_Return by reflexivity.
  reflexivity.
Qed.

(** The persist step when it raises: a raising [session.commit()] stores
    nothing, a raising [session.refresh(event)] leaves the committed row
    behind. *)
Lemma add_commit_refresh_raise env row w m :
  Env.commit_error env = Some m ->
  add_commit_refresh env row w
  = (if Env.raised_by_refresh env
     then World.mk
            (DB.mk (DB.buses (World.db w))
                   (DB.cleaning_events (World.db w)
                    ++ [row (DB.next_event_id (World.db w))])
                   (DB.next_event_id (World.db w) + 1)
                   (DB.alert_store (World.db w)))
            (World.trace w ++ [Commit (row (DB.next_event_id (World.db w)))])
     else w,
     Raise (Error m)).
Proof.
  intros H. unfold add_commit_refresh. rewrite H.
  destruct (Env.raised_by_refresh env); reflexivity.
Qed.

(** Every request either raises before the alert service is called and
    before anything is sent, or it found its bus and persisted its event. *)
Lemma create_event_cases isoformat svc env event_data current_user d :
  (exists w e,
      run_request (create_event isoformat svc env event_data current_user) d
      = (w, Raise e)
      /\ (broadcasts (World.trace w) = []
          /\ DB.alert_store (World.db w) = DB.alert_store d))
  \/ (exists bus,
        filter (fun b => (Bus.id b =? CleaningEventCreate.bus_id event_data)%Z)
               (DB.buses d) = [bus]
        /\ Env.commit_error env = None).
Proof.
  destruct (filter (fun b => (Bus.id b =? CleaningEventCreate.bus_id event_data)%Z)
                   (DB.buses d)) as [|bus [|bus' more]] eqn:Hrows.
  - left. eexists _, _. split.
    + apply create_event_no_row. exact Hrows.
    + split; reflexivity.
  - destruct (Env.commit_error env) as [m|] eqn:Hcommit.
    + left. eexists _, _. split.
      * unfold run_request, create_event.
        erewrite bind_Return by apply select_bus_run.
        cbv [World.db World.trace]. rewrite Hrows.
        erewrite bind_Return by reflexivity.
        cbv beta iota.
        erewrite bind_Raise; [reflexivity|].
        apply add_commit_refresh_raise. exact Hcommit.
      * destruct (Env.raised_by_refresh env); split; reflexivity.
    + right. exists bus. split; reflexivity.
  - left. eexists _, _. split.
    + unfold run_request, create_event.
      erewrite bind_Return by apply select_bus_run.
      cbv [World.db World.trace]. rewrite Hrows.
      erewrite bind_Raise; reflexivity.
    + split; reflexivity.
Qed.

Lemma In_get_event_last (events : list CleaningEvent.t) (event : CleaningEvent.t) d :
  DB.cleaning_events d = (events ++ [event])%list ->
  In event (get_event (CleaningEvent.id event) d).
Proof.
  intros H. unfold get_event. rewrite H.
  apply filter_In. split.
  - apply in_or_app. right. left. reflexivity.
  - apply Z.eqb_refl.
Qed.

(** ** Not found *)

(** C4. If no bus row has the id the submitted event refers to,
    [create_event] raises [HTTPException] 404 "Bus not found" after the
    bus query alone: the trace holds no commit, no call of the alert service
    and no broadcast, and the database is the one it started from. *)
Theorem create_event_bus_not_found isoformat svc env event_data current_user d :
  (forall b, In b (DB.buses d) ->
             Bus.id b <> CleaningEventCreate.bus_id event_data) ->
  run_request (create_event isoformat svc env event_data current_user) d
  = (World.mk d [SelectBus (CleaningEventCreate.bus_id event_data)],
     Raise (HTTPException 404 "Bus not found")).
Proof.
  intros Habsent.
  apply create_event_no_row.
  apply filter_none_of_absent. exact Habsent.
Qed.

Lemma create_event_bus_not_found_witness :
  run_request
    (create_event Sample.isoformat
       (AlertService.check_and_create_alerts Sample.settings)
       (Sample.quiet 1000) (Sample.request 8 DIRTY (80 # 100)) Sample.ana)
    Sample.db0
  = (World.mk Sample.db0 [SelectBus 8],
     Raise (HTTPException 404 "Bus not found")).
Proof.
  apply (create_event_bus_not_found Sample.isoformat
           (AlertService.check_and_create_alerts Sample.settings)
           (Sample.quiet 1000) (Sample.request 8 DIRTY (80 # 100))
           Sample.ana Sample.db0).
  simpl. intros b [Hb|[]]. subst b. simpl. lia.
Defined.

(** ** Advisory failures *)

Lemma In_request_trace_event_stage isoformat env bus current_user event out x :
  In x (notify_event_trace env
          (event_created_message isoformat event bus current_user)) ->
  In x (request_trace isoformat env bus current_user event out).
Proof.
  intros H. unfold request_trace.
  apply in_or_app. right. apply in_or_app. left. exact H.
Qed.

Lemma In_request_trace_alert_stage isoformat env bus current_user event out x :
  In x (check_alerts_trace env bus out) ->
  In x (request_trace isoformat env bus current_user event out).
Proof.
  intros H. unfold request_trace.
  apply in_or_app. right. apply in_or_app. right. right. exact H.
Qed.

(** A send that raises inside the loop over the alerts leaves its line in
    the trace of the loop. *)
Lemma notify_alerts_trace_logs env bus alerts :
  (exists a, In a alerts
             /\ Env.broadcast_error env (alert_created_message a bus) <> None) ->
  exists m, In (Print ("Error checking alerts: " ++ m))
               (notify_alerts_trace env bus alerts).
Proof.
  induction alerts as [|a rest IH]; intros [a0 [Hin Herr]].
  - destruct Hin.
  - simpl.
    destruct (Env.broadcast_error env (alert_created_message a bus)) as [m|] eqn:Ha.
    + exists m. right. left. reflexivity.
    + destruct Hin as [Heq|Hin].
      * subst a0. rewrite Ha in Herr. exfalso. apply Herr. reflexivity.
      * destruct IH as [m Hm].
        { exists a0. split; assumption. }
        exists m. right. exact Hm.
Qed.

(** C2. Once the bus is found and the event committed, whatever the alert
    service, the WebSocket manager and the sends do, [create_event] returns
    the committed event; the event table is the old one with that event
    appended, so the event is found again by its id; and each exception of
    the advisory stages is printed, not propagated: the one raised by the
    alert service, the one raised when the manager is obtained, the one
    raised by the [event.created] send, and one raised by an
    [alert.created] send. *)
Theorem advisory_failures_are_swallowed
    isoformat svc env event_data current_user d bus :
  filter (fun b => (Bus.id b =? CleaningEventCreate.bus_id event_data)%Z)
         (DB.buses d) = [bus] ->
  Env.commit_error env = None ->
  let event :=
    new_cleaning_event env event_data current_user (DB.next_event_id d) in
  let result :=
    svc env (DB.cleaning_events d ++ [event])%list (DB.alert_store d)
        (Bus.id bus) event in
  exists w,
    run_request (create_event isoformat svc env event_data current_user) d
    = (w, Return event)
    /\ DB.cleaning_events (World.db w) = (DB.cleaning_events d ++ [event])%list
    /\ In event (get_event (CleaningEvent.id event) (World.db w))
    /\ (forall e, snd result = Raise e ->
          In (Print ("Error checking alerts: " ++ str e)) (World.trace w))
    /\ (forall m, Env.get_websocket_manager_error env = Some m ->
          In (Print ("Error broadcasting event: " ++ m)) (World.trace w))
    /\ (forall m, Env.get_websocket_manager_error env = None ->
          Env.broadcast_error env
            (event_created_message isoformat event bus current_user) = Some m ->
          In (Print ("Error broadcasting event: " ++ m)) (World.trace w))
    /\ (forall alerts a,
          snd result = Return alerts -> In a alerts ->
          Env.broadcast_error env (alert_created_message a bus) <> None ->
          exists m, In (Print ("Error checking alerts: " ++ m)) (World.trace w)).
Proof.
  intros Hbus Hcommit event result.
  eexists. split.
  { exact (create_event_found isoformat svc env event_data current_user d bus
             Hbus Hcommit). }
  fold event. fold result.
  cbv [World.db World.trace DB.cleaning_events].
  split; [reflexivity|].
  split; [eapply In_get_event_last; reflexivity|].
  split; [|split; [|split]].
  - intros e He. apply In_request_trace_alert_stage.
    rewrite He. left. reflexivity.
  - intros m Hm. apply In_request_trace_event_stage.
    unfold notify_event_trace. rewrite Hm. left. reflexivity.
  - intros m Hmgr Hm. apply In_request_trace_event_stage.
    unfold notify_event_trace. rewrite Hmgr, Hm. right. left. reflexivity.
  - intros alerts a Hres Hin Herr.
    destruct alerts as [|a1 rest]; [destruct Hin|].
    destruct (Env.get_websocket_manager_error env) as [m|] eqn:Hmgr.
    + eexists. apply In_request_trace_alert_stage.
      rewrite Hres. unfold check_alerts_trace. rewrite Hmgr.
      left. reflexivity.
    + destruct (notify_alerts_trace_logs env bus (a1 :: rest)) as [m Hm].
      { exists a. split; assumption. }
      exists m. apply In_request_trace_alert_stage.
      rewrite Hres. unfold check_alerts_trace. rewrite Hmgr. exact Hm.
Qed.

Lemma advisory_failures_are_swallowed_witness :
  exists w,
    run_request
      (create_event Sample.isoformat
         (AlertService.check_and_create_alerts Sample.settings)
         (Sample.failing 1000) (Sample.request 7 DIRTY (80 # 100)) Sample.ana)
      Sample.db0
    = (w, Return (Sample.event_at 1000 DIRTY))
    /\ DB.cleaning_events (World.db w) = [Sample.event_at 1000 DIRTY]
    /\ In (Print "Error checking alerts: alert table unavailable") (World.trace w)
    /\ In (Print "Error broadcasting event: send timed out") (World.trace w).
Proof.
  destruct (advisory_failures_are_swallowed Sample.isoformat
              (AlertService.check_and_create_alerts Sample.settings)
              (Sample.failing 1000) (Sample.request 7 DIRTY (80 # 100))
              Sample.ana Sample.db0 Sample.bus7 eq_refl eq_refl)
    as [w [Hrun [Hevents [_ [Halert [_ [Hsend _]]]]]]].
  exists w. split; [exact Hrun|]. split; [exact Hevents|]. split.
  - apply (Halert (Error "alert table unavailable")). reflexivity.
  - apply (Hsend "send timed out"); reflexivity.
Defined.

(** ** The submitter *)

(** C10. Whenever [create_event] returns an event, that event's [user_id]
    is the id of the authenticated user, whatever the request body holds,
    and it is the row appended to the event table. *)
Theorem submitter_is_current_user
    isoformat svc env event_data current_user d w event :
  run_request (create_event isoformat svc env event_data current_user) d
  = (w, Return event) ->
  CleaningEvent.user_id event = User.id current_user
  /\ DB.cleaning_events (World.db w) = (DB.cleaning_events d ++ [event])%list.
Proof.
  intros Hrun.
  destruct (create_event_cases isoformat svc env event_data current_user d)
    as [[t [e [Hstop _]]] | [bus [Hbus Hcommit]]].
  - rewrite Hstop in Hrun. discriminate.
  - rewrite (create_event_found isoformat svc env event_data current_user d bus
               Hbus Hcommit) in Hrun.
    injection Hrun as Hw Hevent. subst w event.
    split; reflexivity.
Qed.

Lemma submitter_is_current_user_witness :
  CleaningEvent.user_id (Sample.event_at 1000 DIRTY) = User.id Sample.ana
  /\ DB.cleaning_events
       (World.db (fst (run_request
          (create_event Sample.isoformat
             (AlertService.check_and_create_alerts Sample.settings)
             (Sample.quiet 1000) (Sample.request 7 DIRTY (80 # 100)) Sample.ana)
          Sample.db0)))
     = (DB.cleaning_events Sample.db0 ++ [Sample.event_at 1000 DIRTY])%list.
Proof.
  apply (submitter_is_current_user Sample.isoformat
           (AlertService.check_and_create_alerts Sample.settings)
           (Sample.quiet 1000) (Sample.request 7 DIRTY (80 # 100))
           Sample.ana Sample.db0).
  reflexivity.
Defined.

(** ** The order of the stages *)

Lemma In_broadcasts (t : list Effect) (m : JValue) :
  In m (broadcasts t) <-> In (Broadcast m) t.
Proof.
  unfold broadcasts. rewrite in_flat_map. split.
  - intros [e [Hin Hm]]. destruct e; simpl in Hm; try contradiction.
    destruct Hm as [Heq|[]]. subst. exact Hin.
  - intros Hin. exists (Broadcast m). split; [exact Hin | left; reflexivity].
Qed.

Lemma broadcasts_app (t1 t2 : list Effect) :
  broadcasts (t1 ++ t2) = (broadcasts t1 ++ broadcasts t2)%list.
Proof. unfold broadcasts. apply flat_map_app. Qed.

Lemma notify_alerts_trace_all env bus alerts :
  (forall m, Env.broadcast_error env m = None) ->
  notify_alerts_trace env bus alerts
  = map (fun a => Broadcast (alert_created_message a bus)) alerts.
Proof.
  intros Hquiet. induction alerts as [|a rest IH]; simpl.
  - reflexivity.
  - rewrite Hquiet, IH. reflexivity.
Qed.

Lemma broadcasts_map_Broadcast (messages : list JValue) :
  broadcasts (map Broadcast messages) = messages.
Proof.
  induction messages as [|m rest IH].
  - reflexivity.
  - change (broadcasts (map Broadcast (m :: rest)))
      with (m :: broadcasts (map Broadcast rest)).
    rewrite IH. reflexivity.
Qed.

(** When none of the sends raises, the loop sends every message. *)
Lemma notify_alerts_trace_quiet env bus alerts :
  (forall m, In m (map (fun a => alert_created_message a bus) alerts) ->
             Env.broadcast_error env m = None) ->
  notify_alerts_trace env bus alerts
  = map (fun a => Broadcast (alert_created_message a bus)) alerts.
Proof.
  induction alerts as [|a rest IH]; intros Hquiet; simpl.
  - reflexivity.
  - rewrite (Hquiet (alert_created_message a bus)) by (left; reflexivity).
    rewrite IH; [reflexivity|].
    intros m Hm. apply Hquiet. right. exact Hm.
Qed.

(** The loop stops at the first send that raises: that message is the last
    one sent. *)
Lemma notify_alerts_trace_stops env bus :
  forall before alerts m after,
    map (fun a => alert_created_message a bus) alerts
    = (before ++ m :: after)%list ->
    (forall x, In x before -> Env.broadcast_error env x = None) ->
    Env.broadcast_error env m <> None ->
    broadcasts (notify_alerts_trace env bus alerts) = (before ++ [m])%list.
Proof.
  induction before as [|b before IH]; intros alerts m after Hsplit Hquiet Hraise.
  - destruct alerts as [|a rest]; [discriminate Hsplit|].
    simpl in Hsplit. injection Hsplit as Hm _. simpl. rewrite Hm.
    destruct (Env.broadcast_error env m); [reflexivity|].
    exfalso. apply Hraise. reflexivity.
  - destruct alerts as [|a rest]; [discriminate Hsplit|].
    simpl in Hsplit. injection Hsplit as Hb Hrest. simpl. rewrite Hb.
    rewrite (Hquiet b) by (left; reflexivity).
    change (broadcasts (Broadcast b :: notify_alerts_trace env bus rest))
      with (b :: broadcasts (notify_alerts_trace env bus rest)).
    rewrite (IH rest m after Hrest); [reflexivity | | exact Hraise].
    intros x Hx. apply Hquiet. right. exact Hx.
Qed.

(** C3, the claim as written fails on both counts.  In a run where nothing
    raises, the [event.created] broadcast is in the trace before the alert
    service is called, so a broadcast is emitted before alert evaluation;
    and in a run where the manager cannot be obtained, an alert is
    persisted and the broadcasts are not one [event.created] followed by
    one [alert.created] per persisted alert: there are none. *)
Lemma stage_order_claim_fails :
  ~ no_broadcast_before_alert_check
      (World.trace (fst (run_request
         (submit Sample.isoformat Sample.settings (Sample.quiet 1000)
                 (Sample.request 7 DIRTY (80 # 100)) Sample.ana)
         Sample.db0)))
  /\ (AlertStore.alerts (DB.alert_store (World.db (fst (run_request
         (submit Sample.isoformat Sample.settings (Sample.no_manager 1000)
                 (Sample.request 7 DIRTY (80 # 100)) Sample.ana)
         Sample.db0))))
      = [Alert.mk 1 7 MUY_SUCIO CRITICAL "muy_sucio" 1000 None None]
      /\ ~ event_then_one_message_per_alert
            (event_created_message Sample.isoformat
               (Sample.event_at 1000 DIRTY) Sample.bus7 Sample.ana)
            Sample.bus7
            [Alert.mk 1 7 MUY_SUCIO CRITICAL "muy_sucio" 1000 None None]
            (World.trace (fst (run_request
               (submit Sample.isoformat Sample.settings (Sample.no_manager 1000)
                       (Sample.request 7 DIRTY (80 # 100)) Sample.ana)
               Sample.db0)))).
Proof.
  split.
  - intros Hclaim.
    specialize (Hclaim
      [SelectBus 7; Commit (Sample.event_at 1000 DIRTY)]
      (event_created_message Sample.isoformat (Sample.event_at 1000 DIRTY)
                             Sample.bus7 Sample.ana)
      (CheckAlerts 7 (Sample.event_at 1000 DIRTY)
       :: [Broadcast (alert_created_message
                        (Alert.mk 1 7 MUY_SUCIO CRITICAL "muy_sucio" 1000
                                  None None)
                        Sample.bus7)])
      eq_refl).
    discriminate Hclaim.
  - split; [reflexivity|].
    unfold event_then_one_message_per_alert. intros Hclaim.
    discriminate Hclaim.
Qed.

(** C3, amended. Once the bus is found and the event committed, the trace
    of [create_event] is: the bus query, the commit of the event, the
    effects of the [event.created] stage, the call of the alert service, and
    the effects of the [alert.created] stage.  The first stage never calls
    the alert service and broadcasts the [event.created] message alone, or
    nothing when no manager could be obtained.  The last stage broadcasts
    [alert.created] messages of the alerts the service returned, in order:
    none when no manager could be obtained; with a manager, all of them,
    one per returned alert, when none of their sends raises, and otherwise
    those up to and including the first one whose send raises, and none
    after it. *)
Theorem create_event_stage_order
    isoformat svc env event_data current_user d bus :
  filter (fun b => (Bus.id b =? CleaningEventCreate.bus_id event_data)%Z)
         (DB.buses d) = [bus] ->
  Env.commit_error env = None ->
  let event :=
    new_cleaning_event env event_data current_user (DB.next_event_id d) in
  let result :=
    svc env (DB.cleaning_events d ++ [event])%list (DB.alert_store d)
        (Bus.id bus) event in
  let created :=
    match snd result with Return alerts => alerts | Raise _ => [] end in
  let messages := map (fun a => alert_created_message a bus) created in
  exists w t1 t2,
    run_request (create_event isoformat svc env event_data current_user) d
    = (w, Return event)
    /\ World.trace w
       = ([SelectBus (CleaningEventCreate.bus_id event_data); Commit event]
          ++ t1 ++ CheckAlerts (Bus.id bus) event :: t2)%list
    /\ existsb is_check_alerts t1 = false
    /\ broadcasts t1
       = match Env.get_websocket_manager_error env with
         | None => [event_created_message isoformat event bus current_user]
         | Some _ => []
         end
    /\ (Env.get_websocket_manager_error env <> None -> broadcasts t2 = [])
    /\ (Env.get_websocket_manager_error env = None ->
        (forall m, In m messages -> Env.broadcast_error env m = None) ->
        broadcasts t2 = messages)
    /\ (Env.get_websocket_manager_error env = None ->
        forall before m after,
          messages = (before ++ m :: after)%list ->
          (forall x, In x before -> Env.broadcast_error env x = None) ->
          Env.broadcast_error env m <> None ->
          broadcasts t2 = (before ++ [m])%list)
    /\ (Env.get_websocket_manager_error env = None ->
        (forall m, Env.broadcast_error env m = None) ->
        forall alerts, snd result = Return alerts ->
        t1 = [Broadcast (event_created_message isoformat event bus current_user)]
        /\ t2 = map (fun a => Broadcast (alert_created_message a bus)) alerts).
Proof.
  intros Hbus Hcommit event result created messages.
  eexists _, (notify_event_trace env
                (event_created_message isoformat event bus current_user)),
             (check_alerts_trace env bus (snd result)).
  split.
  { exact (create_event_found isoformat svc env event_data current_user d bus
             Hbus Hcommit). }
  split; [reflexivity|].
  unfold notify_event_trace.
  split; [|split; [|split; [|split; [|split]]]].
  - destruct (Env.get_websocket_manager_error env); [reflexivity|].
    destruct (Env.broadcast_error env _); reflexivity.
  - destruct (Env.get_websocket_manager_error env); [reflexivity|].
    destruct (Env.broadcast_error env _); reflexivity.
  - intros Hmgr. unfold check_alerts_trace.
    destruct (snd result) as [[|a rest]|e]; try reflexivity.
    destruct (Env.get_websocket_manager_error env); [reflexivity|].
    exfalso. apply Hmgr. reflexivity.
  - intros Hmgr Hquiet. subst messages created. unfold check_alerts_trace.
    destruct (snd result) as [[|a rest]|e]; try reflexivity.
    rewrite Hmgr. rewrite notify_alerts_trace_quiet by exact Hquiet.
    rewrite <- (map_map (fun a => alert_created_message a bus) Broadcast).
    apply broadcasts_map_Broadcast.
  - intros Hmgr before m after Hsplit Hquiet Hraise.
    subst messages created. unfold check_alerts_trace.
    destruct (snd result) as [[|a rest]|e].
    + destruct before; discriminate Hsplit.
    + rewrite Hmgr.
      exact (notify_alerts_trace_stops env bus before (a :: rest) m after
               Hsplit Hquiet Hraise).
    + destruct before; discriminate Hsplit.
  - intros Hmgr Hquiet alerts Hres. rewrite Hmgr, Hquiet. split; [reflexivity|].
    rewrite Hres. unfold check_alerts_trace. rewrite Hmgr.
    destruct alerts as [|a rest]; [reflexivity|].
    apply notify_alerts_trace_all. exact Hquiet.
Qed.

Lemma create_event_stage_order_witness :
  exists w t1 t2,
    run_request
      (create_event Sample.isoformat
         (AlertService.check_and_create_alerts Sample.settings)
         (Sample.quiet 1000) (Sample.request 7 DIRTY (80 # 100)) Sample.ana)
      Sample.db0
    = (w, Return (Sample.event_at 1000 DIRTY))
    /\ World.trace w
       = ([SelectBus 7; Commit (Sample.event_at 1000 DIRTY)]
          ++ t1 ++ CheckAlerts 7 (Sample.event_at 1000 DIRTY) :: t2)%list
    /\ t1 = [Broadcast (event_created_message Sample.isoformat
                          (Sample.event_at 1000 DIRTY) Sample.bus7 Sample.ana)]
    /\ t2 = [Broadcast (alert_created_message
                          (Alert.mk 1 7 MUY_SUCIO CRITICAL "muy_sucio" 1000
                                    None None)
                          Sample.bus7)]
    /\ broadcasts t2
       = [alert_created_message
            (Alert.mk 1 7 MUY_SUCIO CRITICAL "muy_sucio" 1000 None None)
            Sample.bus7].
Proof.
  pose proof (create_event_stage_order Sample.isoformat
                (AlertService.check_and_create_alerts Sample.settings)
                (Sample.quiet 1000) (Sample.request 7 DIRTY (80 # 100))
                Sample.ana Sample.db0 Sample.bus7 eq_refl eq_refl) as H.
  cbv zeta in H.
  destruct H as [w [t1 [t2 [Hrun [Htrace [_ [_ [_ [Hsent [_ Hall]]]]]]]]]].
  exists w, t1, t2.
  split; [exact Hrun|]. split; [exact Htrace|].
  destruct (Hall eq_refl (fun _ => eq_refl) _ eq_refl) as [H1 H2].
  split; [exact H1|]. split; [exact H2|].
  apply (Hsent eq_refl). intros m _. reflexivity.
Defined.

(** ** The notifications *)

(** The broadcasts of a committed request, with where their content comes
    from: the [event.created] message of the event, the bus found and the
    user, or the [alert.created] message of an alert the service returned
    and the bus found. *)
Lemma broadcast_in_request_trace_of isoformat env bus current_user event out m :
  In (Broadcast m) (request_trace isoformat env bus current_user event out) ->
  m = event_created_message isoformat event bus current_user
  \/ exists alerts alert,
       out = Return alerts /\ In alert alerts
       /\ m = alert_created_message alert bus.
Proof.
  unfold request_trace. intros Hin.
  apply in_app_or in Hin. destruct Hin as [Hin|Hin].
  { destruct Hin as [H|[H|[]]]; discriminate H. }
  apply in_app_or in Hin. destruct Hin as [Hin|Hin].
  - left. unfold notify_event_trace in Hin.
    destruct (Env.get_websocket_manager_error env).
    + destruct Hin as [H|[]]. discriminate H.
    + destruct Hin as [H|Hin]; [injection H as H; symmetry; exact H|].
      destruct (Env.broadcast_error env _).
      * destruct Hin as [H|[]]. discriminate H.
      * destruct Hin.
  - right. destruct Hin as [H|Hin]; [discriminate H|].
    destruct out as [alerts|e].
    + assert (Hloop : forall sent,
                 In (Broadcast m) (notify_alerts_trace env bus sent) ->
                 exists alert, In alert sent /\ m = alert_created_message alert bus).
      { clear Hin. induction sent as [|a rest IH]; simpl.
        - intros [].
        - intros [H|Hin].
          + injection H as H. exists a. split; [left; reflexivity|].
            symmetry. exact H.
          + destruct (Env.broadcast_error env (alert_created_message a bus)).
            * destruct Hin as [H|[]]. discriminate H.
            * destruct (IH Hin) as [alert [Ha Hm]].
              exists alert. split; [right; exact Ha | exact Hm]. }
      unfold check_alerts_trace in Hin.
      destruct alerts as [|a rest]; [destruct Hin|].
      destruct (Env.get_websocket_manager_error env).
      * destruct Hin as [H|[]]. discriminate H.
      * destruct (Hloop (a :: rest) Hin) as [alert [Ha Hm]].
        exists (a :: rest), alert. split; [reflexivity|]. split; assumption.
    + destruct Hin as [H|[]]. discriminate H.
Qed.

(** C7. The [event.created] message is a dictionary with the keys [type]
    and [data], tagged ["event.created"], whose data has exactly the keys
    [id], [bus_id], [bus_ppu], [user_nombre], [estado], [confidence] and
    [created_at], holding the id of the event, its bus reference, the [ppu]
    of the bus, the [nombre] of the submitter, the state, the confidence
    and the creation time.  The [alert.created] message has the same two
    keys, the tag ["alert.created"], and data with exactly the keys [id],
    [bus_id], [bus_ppu], [tipo], [nivel] and [detalle], holding the id of
    the alert, its bus reference, the [ppu] of the bus, the kind, the
    severity and the detail.  The two tags differ.  And every message
    [create_event] broadcasts, in every run, is one of the two, built from
    the event the request returns, the bus row of the requested id and the
    authenticated user, or from an alert the alert service returned for
    that event and that bus. *)
Theorem notification_shapes
    isoformat svc env event_data current_user d
    (event : CleaningEvent.t) (bus : Bus.t) (user : User.t) (alert : Alert.t) :
  let event_message := event_created_message isoformat event bus user in
  let alert_message := alert_created_message alert bus in
  (dict_keys event_message = ["type"; "data"]
   /\ dict_get "type" event_message = Some (JStr "event.created")
   /\ exists data,
        dict_get "data" event_message = Some data
        /\ dict_keys data
           = ["id"; "bus_id"; "bus_ppu"; "user_nombre"; "estado";
              "confidence"; "created_at"]
        /\ dict_get "id" data = Some (JInt (CleaningEvent.id event))
        /\ dict_get "bus_id" data = Some (JInt (CleaningEvent.bus_id event))
        /\ dict_get "bus_ppu" data = Some (JStr (Bus.ppu bus))
        /\ dict_get "user_nombre" data = Some (JStr (User.nombre user))
        /\ dict_get "estado" data
           = Some (JStr (CleaningState_value (CleaningEvent.estado event)))
        /\ dict_get "confidence" data
           = Some (match CleaningEvent.confidence event with
                   | Some c => JFloat c
                   | None => JNull
                   end)
        /\ dict_get "created_at" data
           = Some (JStr (isoformat (CleaningEvent.created_at event))))
  /\ (dict_keys alert_message = ["type"; "data"]
      /\ dict_get "type" alert_message = Some (JStr "alert.created")
      /\ exists data,
           dict_get "data" alert_message = Some data
           /\ dict_keys data
              = ["id"; "bus_id"; "bus_ppu"; "tipo"; "nivel"; "detalle"]
           /\ dict_get "id" data = Some (JInt (Alert.id alert))
           /\ dict_get "bus_id" data = Some (JInt (Alert.bus_id alert))
           /\ dict_get "bus_ppu" data = Some (JStr (Bus.ppu bus))
           /\ dict_get "tipo" data
              = Some (JStr (AlertTipo_value (Alert.tipo alert)))
           /\ dict_get "nivel" data
              = Some (JStr (AlertNivel_value (Alert.nivel alert)))
           /\ dict_get "detalle" data = Some (JStr (Alert.detalle alert)))
  /\ dict_get "type" event_message <> dict_get "type" alert_message
  /\ Forall
       (fun m =>
          exists bus',
            In bus' (DB.buses d)
            /\ Bus.id bus' = CleaningEventCreate.bus_id event_data
            /\ let event' :=
                 new_cleaning_event env event_data current_user
                                    (DB.next_event_id d) in
               snd (run_request
                      (create_event isoformat svc env event_data current_user) d)
               = Return event'
               /\ (m = event_created_message isoformat event' bus' current_user
                   \/ exists alerts alert',
                        snd (svc env (DB.cleaning_events d ++ [event'])%list
                                 (DB.alert_store d) (Bus.id bus') event')
                        = Return alerts
                        /\ In alert' alerts
                        /\ m = alert_created_message alert' bus'))
       (broadcasts (World.trace (fst (run_request
          (create_event isoformat svc env event_data current_user) d)))).
Proof.
  cbv zeta.
  split.
  { split; [reflexivity|]. split; [reflexivity|].
    eexists. split; [reflexivity|]. repeat split. }
  split.
  { split; [reflexivity|]. split; [reflexivity|].
    eexists. split; [reflexivity|]. repeat split. }
  split; [discriminate|].
  apply Forall_forall. intros m Hin.
  destruct (create_event_cases isoformat svc env event_data current_user d)
    as [[w [e [Hstop [Hnone _]]]] | [bus' [Hbus Hcommit]]].
  - rewrite Hstop in Hin. cbv [fst] in Hin. rewrite Hnone in Hin. destruct Hin.
  - rewrite (create_event_found isoformat svc env event_data current_user d bus'
               Hbus Hcommit) in Hin |- *.
    cbv [fst snd World.trace] in Hin |- *.
    apply In_broadcasts in Hin.
    apply broadcast_in_request_trace_of in Hin.
    assert (Hrow : In bus' (filter (fun b => (Bus.id b
                                    =? CleaningEventCreate.bus_id event_data)%Z)
                                   (DB.buses d)))
      by (rewrite Hbus; left; reflexivity).
    apply filter_In in Hrow. destruct Hrow as [Hrow Hid].
    apply Z.eqb_eq in Hid.
    exists bus'. split; [exact Hrow|]. split; [exact Hid|].
    split; [reflexivity|].
    destruct Hin as [Hm|[alerts [alert' [Hout [Ha Hm]]]]].
    + left. exact Hm.
    + right. exists alerts, alert'. split; [exact Hout|]. split; assumption.
Qed.

(** ** The kinds and severities of alerts *)









(** ** Suggestions *)

Lemma suggestions_loop_map lower (issues suggestions : list string) :
  suggestions_loop lower issues suggestions
  = (suggestions ++ map (suggestion_for lower) issues)%list.
Proof.
  revert suggestions.
  induction issues as [|issue rest IH]; intros suggestions; simpl.
  - rewrite app_nil_r. reflexivity.
  - rewrite IH, <- app_assoc. reflexivity.
Qed.

Lemma generate_suggestions_cons lower issue rest :
  _generate_suggestions lower (issue :: rest)
  = map (suggestion_for lower) (issue :: rest).
Proof.
  unfold _generate_suggestions. rewrite suggestions_loop_map. reflexivity.
Qed.

(** C9. [_generate_suggestions] never returns the empty list: for a
    non-empty list of issues it returns one suggestion per issue, in order
    (so as many suggestions as issues), for the empty list it returns the
    single general suggestion; hence every response [analyze_image] returns
    holds at least one suggestion. *)
Theorem generate_suggestions_nonempty
    (lower : string -> string)
    (ml_analyze_image : string -> Outcome (CleaningState * Q * list string))
    (image_base64 : string) (issues : list string) :
  _generate_suggestions lower issues <> []
  /\ match issues with
     | [] =>
         _generate_suggestions lower issues
         = ["Realizar limpieza general del bus"]
     | _ =>
         _generate_suggestions lower issues = map (suggestion_for lower) issues
         /\ List.length (_generate_suggestions lower issues) = List.length issues
     end
  /\ match analyze_image lower ml_analyze_image image_base64 with
     | Return response => AnalysisResponse.suggestions response <> []
     | Raise _ => True
     end.
Proof.
  assert (Hne : forall l, _generate_suggestions lower l <> []).
  { intros [|issue rest].
    - discriminate.
    - rewrite generate_suggestions_cons. discriminate. }
  split; [apply Hne|]. split.
  - destruct issues as [|issue rest].
    + reflexivity.
    + rewrite generate_suggestions_cons. split; [reflexivity|].
      apply length_map.
  - unfold analyze_image.
    destruct (ml_analyze_image image_base64) as [[[state confidence] found]|e].
    + apply Hne.
    + exact I.
Qed.

Example generate_suggestions_run :
  _generate_suggestions ascii_lower ["Papel en el piso"; "otro"; "VENTANA rota"]
  = ["Recoger y desechar basura del piso y asientos";
     "Revisar y limpiar 치rea afectada";
     "Limpiar ventanas con pa침o y limpiador de cristales"].
Proof. reflexivity. Qed.

(** ** The rule window *)

Lemma window_count_app s now events1 events2 busId st :
  AlertService.window_count s now (events1 ++ events2) busId st
  = (AlertService.window_count s now events1 busId st
     + AlertService.window_count s now events2 busId st)%nat.
Proof.
  unfold AlertService.window_count, AlertService.window_events,
         AlertService.recentEventsForBus.
  rewrite !filter_app, length_app. reflexivity.
Qed.

Lemma CleaningState_eqb_refl st : CleaningState_eqb st st = true.
Proof. destruct st; reflexivity. Qed.

(** The count of a one-event history. *)
Lemma window_count_single s now (e : CleaningEvent.t) busId st :
  AlertService.window_count s now [e] busId st
  = if ((CleaningEvent.bus_id e =? busId)%Z
        && (now - AlertService.window_duration s <=? CleaningEvent.created_at e)%Z)
       && (AlertService.in_window s now (CleaningEvent.created_at e)
           && CleaningState_eqb (CleaningEvent.estado e) st)
    then 1%nat else 0%nat.
Proof.
  unfold AlertService.window_count, AlertService.window_events,
         AlertService.recentEventsForBus.
  cbn [filter].
  destruct ((CleaningEvent.bus_id e =? busId)%Z
            && (now - AlertService.window_duration s <=? CleaningEvent.created_at e)%Z);
    cbn [filter andb]; [|reflexivity].
  destruct (AlertService.in_window s now (CleaningEvent.created_at e));
    cbn [filter andb]; [|reflexivity].
  destruct (CleaningState_eqb (CleaningEvent.estado e) st); reflexivity.
Qed.

(** C5. The window of the counting rules is the half-open interval from
    [now - window_duration] (excluded) to [now] (included): an event of the
    bus created exactly at [now - window_duration] adds nothing to the
    count of its state, and, for a window of positive duration, one created
    at [now - window_duration + 1] adds one. *)
Theorem rule_window_is_half_open s now events (e : CleaningEvent.t) :
  0 < AlertService.window_duration s ->
  (CleaningEvent.created_at e = now - AlertService.window_duration s ->
   forall busId st,
     AlertService.window_count s now (events ++ [e]) busId st
     = AlertService.window_count s now events busId st)
  /\ (CleaningEvent.created_at e = now - AlertService.window_duration s + 1 ->
      AlertService.window_count s now (events ++ [e])
        (CleaningEvent.bus_id e) (CleaningEvent.estado e)
      = S (AlertService.window_count s now events
             (CleaningEvent.bus_id e) (CleaningEvent.estado e))).
Proof.
  intros Hpos. split.
  - intros Hts busId st. rewrite window_count_app.
    rewrite (window_count_single s now e busId st), Hts.
    unfold AlertService.in_window. rewrite Z.ltb_irrefl.
    rewrite andb_false_r. simpl. lia.
  - intros Hts. rewrite window_count_app.
    rewrite (window_count_single s now e), Hts.
    unfold AlertService.in_window.
    rewrite Z.eqb_refl, CleaningState_eqb_refl.
    replace (now - AlertService.window_duration s
             <=? now - AlertService.window_duration s + 1)%Z with true
      by (symmetry; apply Z.leb_le; lia).
    replace (now - AlertService.window_duration s
             <? now - AlertService.window_duration s + 1)%Z with true
      by (symmetry; apply Z.ltb_lt; lia).
    replace (now - AlertService.window_duration s + 1 <=? now)%Z with true
      by (symmetry; apply Z.leb_le; lia).
    simpl. lia.
Qed.

Lemma rule_window_is_half_open_witness :
  0 < AlertService.window_duration Sample.settings
  /\ AlertService.window_count Sample.settings 259201000
       ([Sample.event_at 5000 DIRTY] ++ [Sample.event_at 1000 DIRTY]) 7 DIRTY
     = AlertService.window_count Sample.settings 259201000
         [Sample.event_at 5000 DIRTY] 7 DIRTY
  /\ AlertService.window_count Sample.settings 259201000
       ([Sample.event_at 5000 DIRTY] ++ [Sample.event_at 1001 DIRTY]) 7 DIRTY
     = S (AlertService.window_count Sample.settings 259201000
            [Sample.event_at 5000 DIRTY] 7 DIRTY).
Proof.
  assert (Hpos : 0 < AlertService.window_duration Sample.settings)
    by (vm_compute; reflexivity).
  split; [exact Hpos|]. split.
  - apply (proj1 (rule_window_is_half_open Sample.settings 259201000
                    [Sample.event_at 5000 DIRTY] (Sample.event_at 1000 DIRTY)
                    Hpos)).
    reflexivity.
  - apply (proj2 (rule_window_is_half_open Sample.settings 259201000
                    [Sample.event_at 5000 DIRTY] (Sample.event_at 1001 DIRTY)
                    Hpos)).
    reflexivity.
Defined.

(** ** The very dirty rule *)

Lemma very_dirty_proposals s now events busId event :
  filter (fun p => AlertTipo_eqb (AlertService.kind p) MUY_SUCIO)
         (AlertService.evaluate s now events busId event)
  = match AlertService.rule_very_dirty s event with
    | Some p => [p]
    | None => []
    end.
Proof.
  unfold AlertService.evaluate, AlertService.fired,
         AlertService.rule_repeated_dirty, AlertService.rule_recurrent_uncertain,
         AlertService.rule_very_dirty.
  destruct (AlertService.dirty_threshold s
            <=? AlertService.window_count s now events busId DIRTY)%nat;
    destruct (AlertService.uncertain_threshold s
              <=? AlertService.window_count s now events busId UNCERTAIN)%nat;
    destruct (CleaningState_eqb (CleaningEvent.estado event) DIRTY
              && AlertService.confident s event
              && (AlertService.min_issue_count s
                  <=? AlertService.issue_count event)%nat);
    reflexivity.
Qed.

(** C6. For an event whose state is dirty, whose confidence is given and
    whose detected-issue count is at least the configured minimum, the rule
    engine proposes exactly one [muy_sucio] (very dirty) alert, of severity
    [critical], when the confidence is at least the high-confidence bound,
    and none when the confidence is below the bound. *)
Theorem very_dirty_rule s now events busId (event : CleaningEvent.t) (c : Q) :
  CleaningEvent.estado event = DIRTY ->
  CleaningEvent.confidence event = Some c ->
  (AlertService.min_issue_count s <= AlertService.issue_count event)%nat ->
  ((AlertService.high_confidence s <= c)%Q ->
   filter (fun p => AlertTipo_eqb (AlertService.kind p) MUY_SUCIO)
          (AlertService.evaluate s now events busId event)
   = [AlertService.mkProposal MUY_SUCIO CRITICAL
        (AlertService.detail_text s MUY_SUCIO)])
  /\ ((c < AlertService.high_confidence s)%Q ->
      filter (fun p => AlertTipo_eqb (AlertService.kind p) MUY_SUCIO)
             (AlertService.evaluate s now events busId event)
      = []).
Proof.
  intros Hdirty Hconf Hissues.
  rewrite very_dirty_proposals.
  unfold AlertService.rule_very_dirty, AlertService.confident.
  rewrite Hdirty, Hconf.
  apply Nat.leb_le in Hissues. rewrite Hissues.
  split; intros Hc.
  - apply Qle_bool_iff in Hc. rewrite Hc. reflexivity.
  - destruct (Qle_bool (AlertService.high_confidence s) c) eqn:Hle.
    + apply Qle_bool_iff in Hle. exfalso.
      exact (Qlt_not_le _ _ Hc Hle).
    + reflexivity.
Qed.

Lemma very_dirty_rule_witness :
  filter (fun p => AlertTipo_eqb (AlertService.kind p) MUY_SUCIO)
         (AlertService.evaluate Sample.settings 1000
            [Sample.event_at 1000 DIRTY] 7 (Sample.event_at 1000 DIRTY))
  = [AlertService.mkProposal MUY_SUCIO CRITICAL "muy_sucio"]
  /\ filter (fun p => AlertTipo_eqb (AlertService.kind p) MUY_SUCIO)
            (AlertService.evaluate Sample.settings 1000
               [Sample.unsure_event_at 1000] 7 (Sample.unsure_event_at 1000))
     = [].
Proof.
  split.
  - apply (proj1 (very_dirty_rule Sample.settings 1000
                    [Sample.event_at 1000 DIRTY] 7 (Sample.event_at 1000 DIRTY)
                    (80 # 100) eq_refl eq_refl
                    (le_S 2 2 (le_n 2)))).
    unfold Qle. simpl. lia.
  - apply (proj2 (very_dirty_rule Sample.settings 1000
                    [Sample.unsure_event_at 1000] 7 (Sample.unsure_event_at 1000)
                    (50 # 100) eq_refl eq_refl
                    (le_S 2 2 (le_n 2)))).
    unfold Qlt. simpl. lia.
Defined.

(** ** At most one unresolved alert per bus and kind *)

Lemma AlertTipo_eqb_eq a b : AlertTipo_eqb a b = true -> a = b.
Proof. destruct a, b; simpl; intros H; (reflexivity || discriminate H). Qed.

Lemma unresolved_of_true busId k a :
  AlertService.unresolved_of busId k a = true ->
  Alert.bus_id a = busId /\ Alert.tipo a = k.
Proof.
  unfold AlertService.unresolved_of. intros H.
  apply andb_true_iff in H. destruct H as [H _].
  apply andb_true_iff in H. destruct H as [Hbus Hkind].
  split.
  - apply Z.eqb_eq. exact Hbus.
  - apply AlertTipo_eqb_eq. exact Hkind.
Qed.

Lemma existsb_false_filter {A} (f : A -> bool) (l : list A) :
  existsb f l = false -> filter f l = [].
Proof.
  induction l as [|x rest IH]; simpl; intros H.
  - reflexivity.
  - apply orb_false_iff in H. destruct H as [Hx Hrest].
    rewrite Hx. apply IH. exact Hrest.
Qed.

(** Persisting a proposal that is not suppressed keeps the invariant. *)
Lemma create_keeps_at_most_one env store busId p store1 out :
  AlertService.create env store busId p = (store1, out) ->
  AlertService.hasUnresolved store busId (AlertService.kind p) = false ->
  at_most_one_unresolved store ->
  at_most_one_unresolved store1.
Proof.
  unfold AlertService.create. intros Hcreate Hnone Hinv.
  destruct (Env.alert_create_error env (AlertService.kind p)).
  - injection Hcreate as Hstore _. subst store1. exact Hinv.
  - injection Hcreate as Hstore _. subst store1.
    intros b k. unfold AlertService.count_unresolved. cbn [AlertStore.alerts].
    rewrite filter_app, length_app. cbn [filter].
    destruct (AlertService.unresolved_of b k _) eqn:Hnew.
    + apply unresolved_of_true in Hnew. cbn [Alert.bus_id Alert.tipo] in Hnew.
      destruct Hnew as [Hb Hk]. subst b k.
      unfold AlertService.hasUnresolved in Hnone.
      rewrite (existsb_false_filter _ _ Hnone). simpl. lia.
    + specialize (Hinv b k). unfold AlertService.count_unresolved in Hinv.
      simpl. lia.
Qed.

Lemma persist_keeps_at_most_one env busId ps :
  forall store,
    at_most_one_unresolved store ->
    at_most_one_unresolved (fst (AlertService.persist env busId ps store)).
Proof.
  induction ps as [|p rest IH]; intros store Hinv; simpl.
  - exact Hinv.
  - destruct (AlertService.hasUnresolved store busId (AlertService.kind p)) eqn:Hhas.
    + apply IH. exact Hinv.
    + destruct (AlertService.create env store busId p) as [store1 out] eqn:Hcreate.
      pose proof (create_keeps_at_most_one _ _ _ _ _ _ Hcreate Hhas Hinv) as Hinv1.
      destruct out as [a|e].
      * specialize (IH store1 Hinv1).
        destruct (AlertService.persist env busId rest store1) as [store2 [created|e]];
          exact IH.
      * exact Hinv1.
Qed.

Lemma filter_map_length_le {A} (f : A -> bool) (g : A -> A) (l : list A) :
  (forall a, f (g a) = true -> f a = true) ->
  (List.length (filter f (map g l)) <= List.length (filter f l))%nat.
Proof.
  intros Hfg. induction l as [|x rest IH]; simpl.
  - lia.
  - destruct (f (g x)) eqn:Hgx.
    + rewrite (Hfg x Hgx). simpl. lia.
    + destruct (f x); simpl; lia.
Qed.

Lemma resolve_keeps_at_most_one alert_id resolver ts store :
  at_most_one_unresolved store ->
  at_most_one_unresolved (AlertService.resolve alert_id resolver ts store).
Proof.
  intros Hinv b k. specialize (Hinv b k).
  unfold AlertService.count_unresolved, AlertService.resolve in *.
  cbn [AlertStore.alerts].
  eapply Nat.le_trans; [|exact Hinv].
  apply filter_map_length_le.
  intros a. destruct (Alert.id a =? alert_id)%Z.
  - unfold AlertService.unresolved_of, AlertService.unresolved. simpl.
    rewrite andb_false_r. discriminate.
  - intros H. exact H.
Qed.

Lemma apply_operation_keeps_at_most_one isoformat settings d op :
  at_most_one_unresolved (DB.alert_store d) ->
  at_most_one_unresolved
    (DB.alert_store (apply_operation isoformat settings d op)).
Proof.
  intros Hinv. destruct op as [env event_data current_user | alert_id resolver ts].
  - unfold apply_operation, submit.
    destruct (create_event_cases isoformat
                (AlertService.check_and_create_alerts settings)
                env event_data current_user d)
      as [[t [e [Hstop [_ Hstore]]]] | [bus [Hbus Hcommit]]].
    + rewrite Hstop. cbv [fst]. rewrite Hstore. exact Hinv.
    + rewrite (create_event_found isoformat _ env event_data current_user d bus
                 Hbus Hcommit).
      cbv [fst World.db DB.alert_store].
      unfold AlertService.check_and_create_alerts.
      apply persist_keeps_at_most_one. exact Hinv.
  - simpl. apply resolve_keeps_at_most_one. exact Hinv.
Qed.

(** C1. Starting from a store with at most one unresolved alert per bus and
    kind (an empty alert table, for one), every sequence of submissions and
    resolutions leads to a store with at most one unresolved alert per bus
    and kind; and the persistence loop checks for an unresolved alert of the
    proposal's kind for the bus and, when there is one, drops the proposal
    without touching the store. *)
Theorem at_most_one_unresolved_alert isoformat settings ops d :
  at_most_one_unresolved (DB.alert_store d) ->
  at_most_one_unresolved
    (DB.alert_store (apply_operations isoformat settings ops d))
  /\ (forall env busId p rest store,
        AlertService.hasUnresolved store busId (AlertService.kind p) = true ->
        AlertService.persist env busId (p :: rest) store
        = AlertService.persist env busId rest store).
Proof.
  intros Hinv. split.
  - unfold apply_operations. revert d Hinv.
    induction ops as [|op rest IH]; intros d Hinv; simpl.
    + exact Hinv.
    + apply IH. apply apply_operation_keeps_at_most_one. exact Hinv.
  - intros env busId p rest store Hhas. simpl. rewrite Hhas. reflexivity.
Qed.

Lemma at_most_one_unresolved_alert_witness :
  at_most_one_unresolved
    (DB.alert_store
       (apply_operations Sample.isoformat Sample.settings
          [ Submit (Sample.quiet 1000) (Sample.request 7 DIRTY (80 # 100)) Sample.ana;
            Submit (Sample.quiet 2000) (Sample.request 7 DIRTY (90 # 100)) Sample.ana;
            Resolve 1 3 2500;
            Submit (Sample.quiet 3000) (Sample.request 7 DIRTY (70 # 100)) Sample.ana ]
          Sample.db0)).
Proof.
  assert (Hstart : at_most_one_unresolved (DB.alert_store Sample.db0)).
  { intros busId k. vm_compute. lia. }
  exact (proj1 (at_most_one_unresolved_alert Sample.isoformat Sample.settings
           [ Submit (Sample.quiet 1000) (Sample.request 7 DIRTY (80 # 100)) Sample.ana;
             Submit (Sample.quiet 2000) (Sample.request 7 DIRTY (90 # 100)) Sample.ana;
             Resolve 1 3 2500;
             Submit (Sample.quiet 3000) (Sample.request 7 DIRTY (70 # 100)) Sample.ana ]
           Sample.db0 Hstart)).
Defined.

Example three_dirty_submissions :
  map (fun a => (Alert.id a, Alert.tipo a, AlertService.unresolved a))
      (AlertStore.alerts (DB.alert_store
         (apply_operations Sample.isoformat Sample.settings
            [ Submit (Sample.quiet 1000) (Sample.request 7 DIRTY (80 # 100)) Sample.ana;
              Submit (Sample.quiet 2000) (Sample.request 7 DIRTY (90 # 100)) Sample.ana;
              Submit (Sample.quiet 3000) (Sample.request 7 DIRTY (70 # 100)) Sample.ana ]
            Sample.db0)))
  = [(1, MUY_SUCIO, true); (2, REPETIDO, true)].
Proof. reflexivity. Qed.

(** * Further properties of the events router *)

(** ** The joined rows *)

Lemma In_select_joined d users (event : CleaningEvent.t) (bus : Bus.t)
    (user : User.t) :
  In (event, bus, user) (EventsRouter.select_joined d users)
  <-> In event (DB.cleaning_events d)
      /\ In bus (DB.buses d) /\ CleaningEvent.bus_id event = Bus.id bus
      /\ In user users /\ CleaningEvent.user_id event = User.id user.
Proof.
  unfold EventsRouter.select_joined. rewrite in_flat_map. split.
  - intros [e [He Hrow]]. apply in_flat_map in Hrow.
    destruct Hrow as [b [Hb Hrow]]. apply in_map_iff in Hrow.
    destruct Hrow as [u [Heq Hu]]. injection Heq as -> -> ->.
    apply filter_In in Hb. apply filter_In in Hu.
    destruct Hb as [Hb Hbid], Hu as [Hu Huid].
    apply Z.eqb_eq in Hbid. apply Z.eqb_eq in Huid. tauto.
  - intros [He [Hb [Hbid [Hu Huid]]]]. exists event. split; [exact He|].
    apply in_flat_map. exists bus. split.
    + apply filter_In. split; [exact Hb | apply Z.eqb_eq; exact Hbid].
    + apply in_map_iff. exists user. split; [reflexivity|].
      apply filter_In. split; [exact Hu | apply Z.eqb_eq; exact Huid].
Qed.

Lemma In_insert_desc row x sorted :
  In x (EventsRouter.insert_desc row sorted) <-> x = row \/ In x sorted.
Proof.
  induction sorted as [|y rest IH]; simpl.
  - intuition.
  - destruct (EventsRouter.created_at y <=? EventsRouter.created_at row)%Z; simpl.
    + intuition.
    + rewrite IH. intuition.
Qed.

Lemma In_order_by x rows :
  In x (EventsRouter.order_by_created_at_desc rows) <-> In x rows.
Proof.
  induction rows as [|row rest IH]; simpl.
  - tauto.
  - rewrite In_insert_desc, IH. intuition.
Qed.

Lemma length_insert_desc row sorted :
  List.length (EventsRouter.insert_desc row sorted) = S (List.length sorted).
Proof.
  induction sorted as [|y rest IH]; simpl.
  - reflexivity.
  - destruct (EventsRouter.created_at y <=? EventsRouter.created_at row)%Z; simpl.
    + reflexivity.
    + rewrite IH. reflexivity.
Qed.

Lemma length_order_by rows :
  List.length (EventsRouter.order_by_created_at_desc rows) = List.length rows.
Proof.
  induction rows as [|row rest IH]; simpl.
  - reflexivity.
  - rewrite length_insert_desc, IH. reflexivity.
Qed.

Lemma insert_desc_sorted row sorted :
  StronglySorted EventsRouter.newest_first_rows sorted ->
  StronglySorted EventsRouter.newest_first_rows (EventsRouter.insert_desc row sorted).
Proof.
  induction 1 as [|y rest Hrest IH Hy]; simpl.
  - constructor; constructor.
  - destruct (Z.leb_spec (EventsRouter.created_at y) (EventsRouter.created_at row))
      as [Hle|Hlt].
    + constructor.
      * constructor; assumption.
      * constructor; [exact Hle|].
        rewrite Forall_forall in Hy |- *. intros z Hz.
        specialize (Hy z Hz). unfold EventsRouter.newest_first_rows in *. lia.
    + constructor; [exact IH|].
      rewrite Forall_forall in Hy |- *. intros z Hz.
      apply In_insert_desc in Hz. destruct Hz as [->|Hz].
      * unfold EventsRouter.newest_first_rows. lia.
      * apply Hy. exact Hz.
Qed.

Lemma order_by_sorted rows :
  StronglySorted EventsRouter.newest_first_rows (EventsRouter.order_by_created_at_desc rows).
Proof.
  induction rows as [|row rest IH]; simpl.
  - constructor.
  - apply insert_desc_sorted. exact IH.
Qed.

Lemma CleaningState_eqb_eq a b : CleaningState_eqb a b = true <-> a = b.
Proof. destruct a, b; simpl; split; intros H; (reflexivity || discriminate H). Qed.

(** The filters keep exactly the rows that satisfy the parameters. *)
Lemma apply_filters_In ilike p query row :
  In row (EventsRouter.apply_filters ilike p query)
  <-> In row query /\ EventsRouter.satisfies ilike p row.
Proof.
  unfold EventsRouter.satisfies, EventsRouter.apply_filters.
  destruct p as [f t s st k sk lm].
  cbn [EventsRouter.from_date EventsRouter.to_date EventsRouter.ppu
       EventsRouter.estado EventsRouter.operario_id].
  assert (Hf : forall q,
             In row (match f with
                     | Some b => filter (fun r => (b <=? EventsRouter.created_at r)%Z) q
                     | None => q
                     end)
             <-> In row q /\ (forall b, f = Some b -> b <= EventsRouter.created_at row)).
  { intros q. destruct f as [b|].
    - rewrite filter_In, Z.leb_le. split.
      + intros [H1 H2]. split; [exact H1|]. intros b' Hb. injection Hb as <-. exact H2.
      + intros [H1 H2]. split; [exact H1 | apply H2; reflexivity].
    - split; [intros H; split; [exact H | discriminate] | tauto]. }
  assert (Ht : forall q,
             In row (match t with
                     | Some b => filter (fun r => (EventsRouter.created_at r <=? b)%Z) q
                     | None => q
                     end)
             <-> In row q /\ (forall b, t = Some b -> EventsRouter.created_at row <= b)).
  { intros q. destruct t as [b|].
    - rewrite filter_In, Z.leb_le. split.
      + intros [H1 H2]. split; [exact H1|]. intros b' Hb. injection Hb as <-. exact H2.
      + intros [H1 H2]. split; [exact H1 | apply H2; reflexivity].
    - split; [intros H; split; [exact H | discriminate] | tauto]. }
  assert (Hs : forall q,
             In row (match s with
                     | Some EmptyString => q
                     | Some text =>
                         filter (fun r => ilike (Bus.ppu (snd (fst r)))
                                                ("%" ++ text ++ "%")) q
                     | None => q
                     end)
             <-> In row q
                 /\ (forall text, s = Some text -> text <> "" ->
                       ilike (Bus.ppu (snd (fst row))) ("%" ++ text ++ "%") = true)).
  { intros q. destruct s as [[|c text]|].
    - split; [intros H; split; [exact H|] | tauto].
      intros text Hs Hne. injection Hs as <-. exfalso. apply Hne. reflexivity.
    - rewrite filter_In. split.
      + intros [H1 H2]. split; [exact H1|]. intros b' Hb _. injection Hb as <-. exact H2.
      + intros [H1 H2]. split; [exact H1 | apply H2; [reflexivity | discriminate]].
    - split; [intros H; split; [exact H | discriminate] | tauto]. }
  assert (Hst : forall q,
             In row (match st with
                     | Some state =>
                         filter (fun r => CleaningState_eqb
                                            (CleaningEvent.estado (fst (fst r))) state) q
                     | None => q
                     end)
             <-> In row q
                 /\ (forall state, st = Some state ->
                       CleaningEvent.estado (fst (fst row)) = state)).
  { intros q. destruct st as [state|].
    - rewrite filter_In, CleaningState_eqb_eq. split.
      + intros [H1 H2]. split; [exact H1|]. intros b' Hb. injection Hb as <-. exact H2.
      + intros [H1 H2]. split; [exact H1 | apply H2; reflexivity].
    - split; [intros H; split; [exact H | discriminate] | tauto]. }
  assert (Hk : forall q,
             In row (match k with
                     | Some 0%Z => q
                     | Some operator =>
                         filter (fun r => (CleaningEvent.user_id (fst (fst r))
                                           =? operator)%Z) q
                     | None => q
                     end)
             <-> In row q
                 /\ (forall operator, k = Some operator -> operator <> 0 ->
                       CleaningEvent.user_id (fst (fst row)) = operator)).
  { intros q. destruct k as [[|operator|operator]|].
    - split; [intros H; split; [exact H|] | tauto].
      intros operator Hk Hne. injection Hk as <-. exfalso. apply Hne. reflexivity.
    - rewrite filter_In, Z.eqb_eq. split.
      + intros [H1 H2]. split; [exact H1|]. intros b' Hb _. injection Hb as <-. exact H2.
      + intros [H1 H2]. split; [exact H1 | apply H2; [reflexivity | discriminate]].
    - rewrite filter_In, Z.eqb_eq. split.
      + intros [H1 H2]. split; [exact H1|]. intros b' Hb _. injection Hb as <-. exact H2.
      + intros [H1 H2]. split; [exact H1 | apply H2; [reflexivity | discriminate]].
    - split; [intros H; split; [exact H | discriminate] | tauto]. }
  rewrite Hk, Hst, Hs, Ht, Hf. tauto.
Qed.

Lemma In_firstn_In {A} (n : nat) (l : list A) (x : A) :
  In x (firstn n l) -> In x l.
Proof.
  intros H. rewrite <- (firstn_skipn n l). apply in_or_app. left. exact H.
Qed.

Lemma In_skipn_In {A} (n : nat) (l : list A) (x : A) :
  In x (skipn n l) -> In x l.
Proof.
  intros H. rewrite <- (firstn_skipn n l). apply in_or_app. right. exact H.
Qed.

Lemma StronglySorted_skipn {A} (R : A -> A -> Prop) (n : nat) (l : list A) :
  StronglySorted R l -> StronglySorted R (skipn n l).
Proof.
  revert l. induction n as [|n IH]; intros l Hl.
  - exact Hl.
  - destruct l as [|x rest]; [constructor|].
    simpl. apply IH. apply StronglySorted_inv in Hl. tauto.
Qed.

Lemma StronglySorted_firstn {A} (R : A -> A -> Prop) (n : nat) (l : list A) :
  StronglySorted R l -> StronglySorted R (firstn n l).
Proof.
  revert l. induction n as [|n IH]; intros l Hl.
  - constructor.
  - destruct l as [|x rest]; [constructor|].
    apply StronglySorted_inv in Hl. destruct Hl as [Hrest Hx].
    simpl. constructor; [apply IH; exact Hrest|].
    rewrite Forall_forall in Hx |- *. intros y Hy.
    apply Hx. eapply In_firstn_In. exact Hy.
Qed.

Lemma StronglySorted_map {A B} (R : A -> A -> Prop) (S : B -> B -> Prop)
    (f : A -> B) (l : list A) :
  (forall a b, R a b -> S (f a) (f b)) ->
  StronglySorted R l -> StronglySorted S (map f l).
Proof.
  intros HRS. induction 1 as [|x rest Hrest IH Hx]; simpl.
  - constructor.
  - constructor; [exact IH|].
    rewrite Forall_forall in Hx |- *. intros y Hy.
    apply in_map_iff in Hy. destruct Hy as [a [<- Ha]].
    apply HRS. apply Hx. exact Ha.
Qed.

(** ** [list_events] *)

(** An entry of the answer is built from a joined row that passed the
    filters. *)
Lemma list_events_In_rows ilike p d users response :
  In response (EventsRouter.list_events ilike p d users) ->
  exists row,
    response = EventsRouter.build_response row
    /\ In row (EventsRouter.apply_filters ilike p
                (EventsRouter.select_joined d users)).
Proof.
  unfold EventsRouter.list_events. intros Hin.
  apply in_map_iff in Hin. destruct Hin as [row [<- Hrow]].
  apply In_firstn_In, In_skipn_In in Hrow.
  apply (proj1 (In_order_by _ _)) in Hrow.
  exists row. split; [reflexivity | exact Hrow].
Qed.

Lemma list_events_length ilike p d users :
  (List.length (EventsRouter.list_events ilike p d users)
   <= Z.to_nat (EventsRouter.limit p))%nat.
Proof.
  unfold EventsRouter.list_events. rewrite length_map.
  apply firstn_le_length.
Qed.

(** The page of rows, before the responses are built, is newest first. *)
Lemma paged_rows_sorted (n m : nat) rows :
  StronglySorted EventsRouter.newest_first_rows
    (firstn n (skipn m (EventsRouter.order_by_created_at_desc rows))).
Proof.
  apply StronglySorted_firstn, StronglySorted_skipn, order_by_sorted.
Qed.

(** Every entry of the answer is an event of the table together with the
    [ppu] of a bus row it refers to and the [nombre] of a user row it
    refers to, and it passes every filter that was asked for; an event
    whose bus or user row is missing is never listed. *)
Theorem list_events_sound ilike p d users response :
  In response (EventsRouter.list_events ilike p d users) ->
  exists event bus user,
    response = EventsRouter.mkResponse event (Bus.ppu bus) (User.nombre user)
    /\ In event (DB.cleaning_events d)
    /\ In bus (DB.buses d) /\ CleaningEvent.bus_id event = Bus.id bus
    /\ In user users /\ CleaningEvent.user_id event = User.id user
    /\ EventsRouter.satisfies ilike p (event, bus, user).
Proof.
  intros Hin.
  apply list_events_In_rows in Hin.
  destruct Hin as [[[event bus] user] [-> Hrow]].
  apply apply_filters_In in Hrow. destruct Hrow as [Hjoin Hsat].
  apply In_select_joined in Hjoin.
  destruct Hjoin as [He [Hb [Hbid [Hu Huid]]]].
  exists event, bus, user.
  split; [reflexivity|].
  split; [exact He|]. split; [exact Hb|]. split; [exact Hbid|].
  split; [exact Hu|]. split; [exact Huid | exact Hsat].
Qed.

Lemma list_events_sound_witness :
  exists event bus user,
    EventsRouter.mkResponse (Fleet.inspection 3 7 4 UNCERTAIN 2000) "ABCD12" "Luis"
    = EventsRouter.mkResponse event (Bus.ppu bus) (User.nombre user)
    /\ In event (DB.cleaning_events Fleet.db)
    /\ In bus (DB.buses Fleet.db) /\ CleaningEvent.bus_id event = Bus.id bus
    /\ In user Fleet.users /\ CleaningEvent.user_id event = User.id user
    /\ EventsRouter.satisfies Fleet.ilike
         (EventsRouter.mkParams (Some 1500) None (Some "abcd") None (Some 4) 0 100)
         (event, bus, user).
Proof.
  apply (list_events_sound Fleet.ilike
           (EventsRouter.mkParams (Some 1500) None (Some "abcd") None (Some 4) 0 100)
           Fleet.db Fleet.users).
  vm_compute. left. reflexivity.
Defined.

(** The page never holds more than [limit] entries, hence never more than
    the 100 the parameter validation allows. *)
Theorem list_events_page_bound ilike p d users :
  1 <= EventsRouter.limit p <= 100 ->
  Z.of_nat (List.length (EventsRouter.list_events ilike p d users))
  <= EventsRouter.limit p
  /\ (List.length (EventsRouter.list_events ilike p d users) <= 100)%nat.
Proof.
  intros Hlimit.
  pose proof (list_events_length ilike p d users) as Hlen. lia.
Qed.

Lemma list_events_page_bound_witness :
  Z.of_nat (List.length (EventsRouter.list_events Fleet.ilike
              (EventsRouter.mkParams None None None None None 1 2)
              Fleet.db Fleet.users)) <= 2
  /\ (List.length (EventsRouter.list_events Fleet.ilike
              (EventsRouter.mkParams None None None None None 1 2)
              Fleet.db Fleet.users) <= 100)%nat.
Proof.
  apply (list_events_page_bound Fleet.ilike
           (EventsRouter.mkParams None None None None None 1 2)
           Fleet.db Fleet.users).
  simpl. lia.
Defined.

(** The answer is ordered newest first, on every page and under every
    filter. *)
Theorem list_events_newest_first ilike p d users :
  StronglySorted EventsRouter.newest_first
                 (EventsRouter.list_events ilike p d users).
Proof.
  unfold EventsRouter.list_events.
  apply (StronglySorted_map EventsRouter.newest_first_rows).
  - intros [[e1 b1] u1] [[e2 b2] u2] Hrows.
    unfold EventsRouter.newest_first, EventsRouter.newest_first_rows,
           EventsRouter.created_at in *.
    exact Hrows.
  - apply paged_rows_sorted.
Qed.

(** Nothing is lost but by paging: with [skip = 0] and a [limit] that
    covers the joined rows, every event that has its bus row and its user
    row and passes the filters is listed. *)
Theorem list_events_complete ilike p d users event bus user :
  EventsRouter.skip p = 0 ->
  (List.length (EventsRouter.select_joined d users)
   <= Z.to_nat (EventsRouter.limit p))%nat ->
  In event (DB.cleaning_events d) ->
  In bus (DB.buses d) -> CleaningEvent.bus_id event = Bus.id bus ->
  In user users -> CleaningEvent.user_id event = User.id user ->
  EventsRouter.satisfies ilike p (event, bus, user) ->
  In (EventsRouter.mkResponse event (Bus.ppu bus) (User.nombre user))
     (EventsRouter.list_events ilike p d users).
Proof.
  intros Hskip Hlimit He Hb Hbid Hu Huid Hsat.
  unfold EventsRouter.list_events. rewrite Hskip. cbn [Z.to_nat skipn].
  rewrite firstn_all2.
  - apply in_map_iff. exists (event, bus, user). split; [reflexivity|].
    apply In_order_by, apply_filters_In. split; [|exact Hsat].
    apply In_select_joined. tauto.
  - rewrite length_order_by.
    eapply Nat.le_trans; [|exact Hlimit].
    clear. generalize (EventsRouter.select_joined d users). intros rows.
    assert (Hfilter : forall (f : EventsRouter.Row -> bool) l,
               (List.length (filter f l) <= List.length l)%nat).
    { intros f l. induction l as [|x l IH]; simpl; [lia|].
      destruct (f x); simpl; lia. }
    unfold EventsRouter.apply_filters.
    destruct (EventsRouter.from_date p), (EventsRouter.to_date p),
      (EventsRouter.ppu p) as [[|c s]|], (EventsRouter.estado p),
      (EventsRouter.operario_id p) as [[|k|k]|];
      repeat (eapply Nat.le_trans; [apply Hfilter|]); lia.
Qed.

Lemma list_events_complete_witness :
  In (EventsRouter.mkResponse (Fleet.inspection 2 9 4 CLEAN 3000) "WXYZ99" "Luis")
     (EventsRouter.list_events Fleet.ilike EventsRouter.default_params
                               Fleet.db Fleet.users).
Proof.
  apply (list_events_complete Fleet.ilike EventsRouter.default_params
           Fleet.db Fleet.users (Fleet.inspection 2 9 4 CLEAN 3000)
           Fleet.bus9 Fleet.luis).
  - reflexivity.
  - vm_compute. lia.
  - simpl. tauto.
  - simpl. tauto.
  - reflexivity.
  - simpl. tauto.
  - reflexivity.
  - unfold EventsRouter.satisfies. simpl. repeat split; intros; discriminate.
Defined.

(** ** [get_event] *)

Lemma first_filter_none {A} (f : A -> bool) (l : list A) :
  EventsRouter.first (filter f l) = None <-> forall x, In x l -> f x = false.
Proof.
  induction l as [|y rest IH]; simpl.
  - split; [intros _ x [] | reflexivity].
  - destruct (f y) eqn:Hy; simpl.
    + split; [discriminate|]. intros H. specialize (H y (or_introl eq_refl)).
      congruence.
    + rewrite IH. split.
      * intros H x [<-|Hx]; [exact Hy | apply H; exact Hx].
      * intros H x Hx. apply H. right. exact Hx.
Qed.

Lemma first_filter_some {A} (f : A -> bool) (l : list A) (x : A) :
  EventsRouter.first (filter f l) = Some x -> In x l /\ f x = true.
Proof.
  intros H. apply filter_In.
  destruct (filter f l) as [|y rest]; [discriminate|].
  injection H as ->. left. reflexivity.
Qed.

(** [get_event] answers 404 "Event not found" exactly when no event of that
    id has both its bus row and its user row; otherwise it returns such an
    event with the [ppu] of the bus and the [nombre] of the user. *)
Theorem get_event_not_found_iff event_id d users :
  (EventsRouter.get_event event_id d users
   = Raise (HTTPException 404 "Event not found")
   <-> ~ exists event bus user,
         In event (DB.cleaning_events d) /\ CleaningEvent.id event = event_id
         /\ In bus (DB.buses d) /\ CleaningEvent.bus_id event = Bus.id bus
         /\ In user users /\ CleaningEvent.user_id event = User.id user)
  /\ (forall response,
        EventsRouter.get_event event_id d users = Return response ->
        exists event bus user,
          response = EventsRouter.mkResponse event (Bus.ppu bus) (User.nombre user)
          /\ In event (DB.cleaning_events d) /\ CleaningEvent.id event = event_id
          /\ In bus (DB.buses d) /\ CleaningEvent.bus_id event = Bus.id bus
          /\ In user users /\ CleaningEvent.user_id event = User.id user).
Proof.
  unfold EventsRouter.get_event.
  destruct (EventsRouter.first
              (filter (fun row => (CleaningEvent.id (fst (fst row)) =? event_id)%Z)
                      (EventsRouter.select_joined d users)))
    as [[[event bus] user]|] eqn:Hfirst.
  - apply first_filter_some in Hfirst. destruct Hfirst as [Hjoin Hid].
    apply In_select_joined in Hjoin. apply Z.eqb_eq in Hid. simpl in Hid.
    split.
    + split; [discriminate|]. intros Hnone. exfalso. apply Hnone.
      exists event, bus, user. tauto.
    + intros response Hret. injection Hret as <-.
      exists event, bus, user. split; [reflexivity|]. tauto.
  - split; [|discriminate].
    split; [|reflexivity]. intros _ [event [bus [user H]]].
    pose proof (proj1 (first_filter_none _ _) Hfirst (event, bus, user)) as Hno.
    simpl in Hno. rewrite (proj2 (Z.eqb_eq _ _)) in Hno by tauto.
    assert (Hin : In (event, bus, user) (EventsRouter.select_joined d users))
      by (apply In_select_joined; tauto).
    specialize (Hno Hin). discriminate.
Qed.

Example get_event_of_orphan :
  EventsRouter.get_event 4 Fleet.db Fleet.users
  = Raise (HTTPException 404 "Event not found").
Proof. reflexivity. Qed.

Lemma select_joined_app buses events1 events2 next store users :
  EventsRouter.select_joined (DB.mk buses (events1 ++ events2) next store) users
  = (EventsRouter.select_joined (DB.mk buses events1 next store) users
     ++ EventsRouter.select_joined (DB.mk buses events2 next store) users)%list.
Proof. unfold EventsRouter.select_joined. simpl. apply flat_map_app. Qed.

Lemma filter_id_absent event_id d users :
  (forall e, In e (DB.cleaning_events d) -> CleaningEvent.id e <> event_id) ->
  filter (fun row : EventsRouter.Row =>
            (CleaningEvent.id (fst (fst row)) =? event_id)%Z)
         (EventsRouter.select_joined d users) = [].
Proof.
  intros Hfresh.
  destruct (filter _ (EventsRouter.select_joined d users)) as [|row rest] eqn:Hrows;
    [reflexivity|].
  exfalso.
  assert (Hrow : In row (row :: rest)) by (left; reflexivity).
  rewrite <- Hrows in Hrow. apply filter_In in Hrow.
  destruct Hrow as [Hjoin Hrow]. destruct row as [[e b] u].
  apply In_select_joined in Hjoin. simpl in Hrow.
  apply Z.eqb_eq in Hrow. apply (Hfresh e); tauto.
Qed.

(** Reading back the last event of the table. *)
Lemma get_event_last buses events (event : CleaningEvent.t) next store users
    bus user :
  (forall e, In e events -> CleaningEvent.id e <> CleaningEvent.id event) ->
  filter (fun b => (CleaningEvent.bus_id event =? Bus.id b)%Z) buses = [bus] ->
  filter (fun u => (CleaningEvent.user_id event =? User.id u)%Z) users = [user] ->
  EventsRouter.get_event (CleaningEvent.id event)
    (DB.mk buses (events ++ [event]) next store) users
  = Return (EventsRouter.mkResponse event (Bus.ppu bus) (User.nombre user)).
Proof.
  intros Hfresh Hbus Huser.
  unfold EventsRouter.get_event.
  rewrite select_joined_app, filter_app.
  pose proof (filter_id_absent (CleaningEvent.id event)
                (DB.mk buses events next store) users Hfresh) as Hold.
  unfold EventsRouter.Row in *. rewrite Hold.
  unfold EventsRouter.select_joined.
  cbn [app DB.cleaning_events DB.buses flat_map].
  rewrite Hbus. cbn [flat_map]. rewrite Huser.
  cbn [map app filter fst]. rewrite Z.eqb_refl.
  reflexivity.
Qed.

(** What was created can be read back: after [create_event] returned an
    event, [get_event] on its id returns that event with the [ppu] of its
    bus and the [nombre] of the submitter, provided the id drawn for it was
    not in use and the user table holds the submitter's row and no other
    row of that id. *)
Theorem create_then_get_event
    isoformat svc env event_data current_user d users w event :
  run_request (create_event isoformat svc env event_data current_user) d
  = (w, Return event) ->
  (forall e, In e (DB.cleaning_events d) ->
             CleaningEvent.id e <> DB.next_event_id d) ->
  filter (fun user => (User.id current_user =? User.id user)%Z) users
  = [current_user] ->
  exists bus,
    In bus (DB.buses d)
    /\ Bus.id bus = CleaningEventCreate.bus_id event_data
    /\ EventsRouter.get_event (CleaningEvent.id event) (World.db w) users
       = Return (EventsRouter.mkResponse event (Bus.ppu bus)
                                          (User.nombre current_user)).
Proof.
  intros Hrun Hfresh Huser.
  destruct (create_event_cases isoformat svc env event_data current_user d)
    as [[t [e [Hstop _]]] | [bus [Hbus Hcommit]]].
  { rewrite Hstop in Hrun. discriminate. }
  rewrite (create_event_found isoformat svc env event_data current_user d bus
             Hbus Hcommit) in Hrun.
  injection Hrun as Hw Hevent. subst w event.
  assert (Hin : In bus (filter (fun b => (Bus.id b =? CleaningEventCreate.bus_id event_data)%Z)
                               (DB.buses d)))
    by (rewrite Hbus; left; reflexivity).
  apply filter_In in Hin. destruct Hin as [Hin Hid]. apply Z.eqb_eq in Hid.
  exists bus. split; [exact Hin|]. split; [exact Hid|].
  cbv [World.db].
  apply get_event_last.
  - exact Hfresh.
  - rewrite <- Hbus. apply filter_ext. intros b. apply Z.eqb_sym.
  - exact Huser.
Qed.

Lemma create_then_get_event_witness :
  exists bus,
    In bus (DB.buses Fleet.db)
    /\ Bus.id bus = 9
    /\ EventsRouter.get_event 5
         (World.db (fst (run_request
            (create_event Sample.isoformat
               (AlertService.check_and_create_alerts Sample.settings)
               (Sample.quiet 5000) (Sample.request 9 CLEAN (90 # 100)) Fleet.luis)
            Fleet.db)))
         Fleet.users
       = Return (EventsRouter.mkResponse
                   (CleaningEvent.mk 5 9 4 CLEAN (Some (90 # 100)) None None
                                     MANUAL Sample.three_issues 5000)
                   (Bus.ppu bus) "Luis").
Proof.
  apply (create_then_get_event Sample.isoformat
           (AlertService.check_and_create_alerts Sample.settings)
           (Sample.quiet 5000) (Sample.request 9 CLEAN (90 # 100)) Fleet.luis
           Fleet.db Fleet.users
           (fst (run_request
              (create_event Sample.isoformat
                 (AlertService.check_and_create_alerts Sample.settings)
                 (Sample.quiet 5000) (Sample.request 9 CLEAN (90 # 100))
                 Fleet.luis)
              Fleet.db))
           (CleaningEvent.mk 5 9 4 CLEAN (Some (90 # 100)) None None
                             MANUAL Sample.three_issues 5000)).
  - reflexivity.
  - simpl. intros e [<-|[<-|[<-|[<-|[]]]]]; simpl; lia.
  - reflexivity.
Defined.

(** * Further properties of [create_event] *)

(** A request that raises stopped before the alert service was called and
    before anything was sent or printed.  Either it has done nothing but
    look the bus up, and the database is the one it started from: this is
    the missing bus, a bus query with several rows, and a [session.commit()]
    that raises.  Or [session.refresh(event)] raised after the commit: then
    the trace holds the bus query and the commit alone, and the committed
    event stays in the table although the caller gets the exception. *)
Theorem create_event_raise_stops_early
    isoformat svc env event_data current_user d w e :
  run_request (create_event isoformat svc env event_data current_user) d
  = (w, Raise e) ->
  (World.db w = d
   /\ World.trace w = [SelectBus (CleaningEventCreate.bus_id event_data)])
  \/ (Env.raised_by_refresh env = true
      /\ Env.commit_error env = Some (str e)
      /\ World.db w
         = DB.mk (DB.buses d)
                 (DB.cleaning_events d
                  ++ [new_cleaning_event env event_data current_user
                        (DB.next_event_id d)])
                 (DB.next_event_id d + 1)
                 (DB.alert_store d)
      /\ World.trace w
         = [SelectBus (CleaningEventCreate.bus_id event_data);
            Commit (new_cleaning_event env event_data current_user
                      (DB.next_event_id d))]).
Proof.
  intros Hrun.
  destruct (filter (fun b => (Bus.id b =? CleaningEventCreate.bus_id event_data)%Z)
                   (DB.buses d)) as [|bus [|bus' more]] eqn:Hrows.
  - rewrite (create_event_no_row isoformat svc env event_data current_user d Hrows)
      in Hrun.
    injection Hrun as <- _. left. split; reflexivity.
  - destruct (Env.commit_error env) as [m|] eqn:Hcommit.
    + revert Hrun. unfold run_request, create_event.
      erewrite bind_Return by apply select_bus_run.
      cbv [World.db World.trace]. rewrite Hrows.
      erewrite bind_Return by reflexivity.
      cbv beta iota.
      erewrite bind_Raise by (apply add_commit_refresh_raise; exact Hcommit).
      cbv [World.db World.trace].
      destruct (Env.raised_by_refresh env); intros Hrun;
        injection Hrun as <- <-.
      * right. split; [reflexivity|]. split; [reflexivity|].
        split; reflexivity.
      * left. split; reflexivity.
    + rewrite (create_event_found isoformat svc env event_data current_user d bus
                 Hrows Hcommit) in Hrun.
      discriminate Hrun.
  - revert Hrun. unfold run_request, create_event.
    erewrite bind_Return by apply select_bus_run.
    cbv [World.db World.trace]. rewrite Hrows.
    erewrite bind_Raise by reflexivity.
    intros Hrun. injection Hrun as <- _. left. split; reflexivity.
Qed.

Lemma create_event_raise_stops_early_witness :
  DB.cleaning_events (World.db (fst (run_request
     (create_event Sample.isoformat
        (AlertService.check_and_create_alerts Sample.settings)
        (Env.mk 1000 (Some "connection lost") true None (fun _ => None) 1000
                (fun _ => None))
        (Sample.request 7 DIRTY (80 # 100)) Sample.ana)
     Sample.db0))) = [Sample.event_at 1000 DIRTY]
  /\ World.trace (fst (run_request
       (create_event Sample.isoformat
          (AlertService.check_and_create_alerts Sample.settings)
          (Env.mk 1000 (Some "connection lost") true None (fun _ => None) 1000
                  (fun _ => None))
          (Sample.request 7 DIRTY (80 # 100)) Sample.ana)
       Sample.db0))
     = [SelectBus 7; Commit (Sample.event_at 1000 DIRTY)].
Proof.
  destruct (create_event_raise_stops_early Sample.isoformat
              (AlertService.check_and_create_alerts Sample.settings)
              (Env.mk 1000 (Some "connection lost") true None (fun _ => None)
                      1000 (fun _ => None))
              (Sample.request 7 DIRTY (80 # 100)) Sample.ana Sample.db0
              (fst (run_request
                 (create_event Sample.isoformat
                    (AlertService.check_and_create_alerts Sample.settings)
                    (Env.mk 1000 (Some "connection lost") true None
                            (fun _ => None) 1000 (fun _ => None))
                    (Sample.request 7 DIRTY (80 # 100)) Sample.ana)
                 Sample.db0))
              (Error "connection lost") eq_refl)
    as [[Hdb Htrace] | [_ [_ [Hdb Htrace]]]].
  - discriminate Htrace.
  - split; [rewrite Hdb; reflexivity | exact Htrace].
Defined.

(** When the WebSocket manager cannot be obtained, [manager] stays unbound:
    the event is still returned and what the alert service stored stays in
    the alert table, but not one message is broadcast, neither
    [event.created] nor [alert.created].  The first handler prints its
    line; the second handler prints a line exactly when the service raised
    or returned at least one alert, and nothing when it returned none. *)
Theorem alerts_without_manager
    isoformat svc env event_data current_user d bus m :
  filter (fun b => (Bus.id b =? CleaningEventCreate.bus_id event_data)%Z)
         (DB.buses d) = [bus] ->
  Env.commit_error env = None ->
  Env.get_websocket_manager_error env = Some m ->
  let event :=
    new_cleaning_event env event_data current_user (DB.next_event_id d) in
  let result :=
    svc env (DB.cleaning_events d ++ [event])%list (DB.alert_store d)
        (Bus.id bus) event in
  exists w tail,
    run_request (create_event isoformat svc env event_data current_user) d
    = (w, Return event)
    /\ DB.alert_store (World.db w) = fst result
    /\ broadcasts (World.trace w) = []
    /\ World.trace w
       = ([SelectBus (CleaningEventCreate.bus_id event_data); Commit event;
           Print ("Error broadcasting event: " ++ m);
           CheckAlerts (Bus.id bus) event] ++ tail)%list
    /\ match snd result with
       | Return [] => tail = []
       | Return (_ :: _) =>
           exists line, tail = [Print ("Error checking alerts: " ++ line)]
       | Raise e => tail = [Print ("Error checking alerts: " ++ str e)]
       end.
Proof.
  intros Hbus Hcommit Hmgr event result.
  eexists _, (check_alerts_trace env bus (snd result)). split.
  { exact (create_event_found isoformat svc env event_data current_user d bus
             Hbus Hcommit). }
  fold event. fold result.
  cbv [World.db World.trace DB.alert_store].
  split; [reflexivity|].
  unfold request_trace, notify_event_trace, check_alerts_trace.
  rewrite Hmgr.
  split; [|split].
  - destruct (snd result) as [[|alert rest]|e]; reflexivity.
  - reflexivity.
  - destruct (snd result) as [[|alert rest]|e].
    + reflexivity.
    + eexists. reflexivity.
    + reflexivity.
Qed.

Lemma alerts_without_manager_witness :
  exists w,
    run_request
      (create_event Sample.isoformat
         (AlertService.check_and_create_alerts Sample.settings)
         (Env.mk 1000 None false (Some "No module named 'app.main'")
                 (fun _ => None) 1000 (fun _ => None))
         (Sample.request 7 DIRTY (80 # 100)) Sample.ana)
      Sample.db0
    = (w, Return (Sample.event_at 1000 DIRTY))
    /\ AlertStore.alerts (DB.alert_store (World.db w))
       = [Alert.mk 1 7 MUY_SUCIO CRITICAL "muy_sucio" 1000 None None]
    /\ broadcasts (World.trace w) = [].
Proof.
  pose proof (alerts_without_manager Sample.isoformat
                (AlertService.check_and_create_alerts Sample.settings)
                (Env.mk 1000 None false (Some "No module named 'app.main'")
                        (fun _ => None) 1000 (fun _ => None))
                (Sample.request 7 DIRTY (80 # 100)) Sample.ana Sample.db0
                Sample.bus7 "No module named 'app.main'"
                eq_refl eq_refl eq_refl) as H.
  cbv zeta in H.
  destruct H as [w [tail [Hrun [Hstore [Hnone _]]]]].
  exists w. split; [exact Hrun|]. split; [|exact Hnone].
  rewrite Hstore. reflexivity.
Defined.

(** * Further properties of the suggestions *)

Lemma prefix_iff (needle haystack : string) :
  String.prefix needle haystack = true
  <-> exists after, haystack = needle ++ after.
Proof.
  revert haystack. induction needle as [|c needle IH]; intros haystack.
  - split; [intros _; exists haystack; reflexivity|].
    intros _. destruct haystack; reflexivity.
  - destruct haystack as [|h haystack]; simpl.
    + split; [discriminate | intros [after H]; discriminate H].
    + destruct (Ascii.ascii_dec c h) as [->|Hne].
      * rewrite IH. split.
        -- intros [after ->]. exists after. reflexivity.
        -- intros [after H]. injection H as ->. exists after. reflexivity.
      * split; [discriminate|].
        intros [after H]. injection H as Hc _. congruence.
Qed.

(** [contains] is the substring test of Python's [in]. *)
Lemma contains_iff (needle haystack : string) :
  contains needle haystack = true
  <-> exists before after, haystack = before ++ needle ++ after.
Proof.
  induction haystack as [|h haystack IH].
  - cbn [contains]. destruct (String.prefix needle "") eqn:Hp.
    + split; [intros _ | reflexivity].
      apply prefix_iff in Hp. destruct Hp as [after ->].
      exists "", after. reflexivity.
    + split; [discriminate|]. intros [before [after H]].
      destruct before as [|b before]; [|discriminate H].
      simpl in H. assert (Hp' : String.prefix needle "" = true)
        by (apply prefix_iff; exists after; exact H).
      congruence.
  - cbn [contains]. destruct (String.prefix needle (String h haystack)) eqn:Hp.
    + split; [intros _ | reflexivity].
      apply prefix_iff in Hp. destruct Hp as [after ->].
      exists "", after. reflexivity.
    + rewrite IH. split.
      * intros [before [after ->]]. exists (String h before), after. reflexivity.
      * intros [before [after H]]. destruct before as [|b before].
        -- simpl in H. assert (Hp' : String.prefix needle (String h haystack) = true)
             by (apply prefix_iff; exists after; exact H).
           congruence.
        -- injection H as _ ->. exists before, after. reflexivity.
Qed.

Lemma suggestion_for_cases lower issue :
  In (suggestion_for lower issue)
     [ "Recoger y desechar basura del piso y asientos";
       "Limpiar ventanas con pa침o y limpiador de cristales";
       "Aplicar limpiador y frotar manchas con pa침o";
       "Pasar pa침o seco o aspirar superficies con polvo";
       "Limpiar pasamanos con desinfectante";
       "Revisar y limpiar 치rea afectada" ].
Proof.
  unfold suggestion_for.
  repeat match goal with
         | |- context [if ?b then _ else _] => destruct b
         end; simpl; tauto.
Qed.

(** Every suggestion returned is one of seven fixed sentences: the six of
    the keyword branches and the general one. *)
Theorem suggestions_vocabulary lower issues :
  Forall (fun suggestion =>
            In suggestion
               [ "Recoger y desechar basura del piso y asientos";
                 "Limpiar ventanas con pa침o y limpiador de cristales";
                 "Aplicar limpiador y frotar manchas con pa침o";
                 "Pasar pa침o seco o aspirar superficies con polvo";
                 "Limpiar pasamanos con desinfectante";
                 "Revisar y limpiar 치rea afectada";
                 "Realizar limpieza general del bus" ])
         (_generate_suggestions lower issues).
Proof.
  destruct issues as [|issue rest].
  - constructor; [|constructor]. simpl. tauto.
  - rewrite generate_suggestions_cons. apply Forall_forall.
    intros suggestion Hin. apply in_map_iff in Hin.
    destruct Hin as [x [<- _]].
    pose proof (suggestion_for_cases lower x) as H. simpl in H |- *. tauto.
Qed.

(** The general suggestion is returned for the empty issue list and for no
    other: a non-empty list never yields it. *)
Theorem general_suggestion_iff_no_issue lower issues :
  In "Realizar limpieza general del bus" (_generate_suggestions lower issues)
  <-> issues = [].
Proof.
  split.
  - destruct issues as [|issue rest]; [reflexivity|].
    rewrite generate_suggestions_cons. intros Hin.
    apply in_map_iff in Hin. destruct Hin as [x [Hx _]].
    pose proof (suggestion_for_cases lower x) as H. rewrite Hx in H.
    simpl in H. repeat (destruct H as [H|H]; [discriminate H|]). destruct H.
  - intros ->. left. reflexivity.
Qed.

(** An issue gets the catch-all suggestion exactly when its lower-cased
    text holds none of the seven keywords as a substring. *)
Theorem default_suggestion_iff_no_keyword lower issue :
  suggestion_for lower issue = "Revisar y limpiar 치rea afectada"
  <-> forall keyword,
        In keyword ["papel"; "basura"; "ventana"; "cristal"; "mancha";
                    "polvo"; "pasamano"] ->
        ~ has_substring keyword (lower issue).
Proof.
  unfold suggestion_for, has_substring. split.
  - intros Hdefault keyword Hin Hsub. apply contains_iff in Hsub.
    destruct (contains "papel" (lower issue)) eqn:E1,
             (contains "basura" (lower issue)) eqn:E2,
             (contains "ventana" (lower issue)) eqn:E3,
             (contains "cristal" (lower issue)) eqn:E4,
             (contains "mancha" (lower issue)) eqn:E5,
             (contains "polvo" (lower issue)) eqn:E6,
             (contains "pasamano" (lower issue)) eqn:E7;
      cbn [orb] in Hdefault; try discriminate Hdefault.
    simpl in Hin.
    destruct Hin as [<-|[<-|[<-|[<-|[<-|[<-|[<-|[]]]]]]]]; congruence.
  - intros Hnone.
    assert (Hfalse : forall keyword,
               In keyword ["papel"; "basura"; "ventana"; "cristal"; "mancha";
                           "polvo"; "pasamano"] ->
               contains keyword (lower issue) = false).
    { intros keyword Hin. destruct (contains keyword (lower issue)) eqn:Hc;
        [|reflexivity].
      exfalso. apply (Hnone keyword Hin). apply contains_iff. exact Hc. }
    rewrite !Hfalse by (simpl; tauto). reflexivity.
Qed.

(** Suggestions of two non-empty issue lists concatenate. *)
Theorem generate_suggestions_app lower issues1 issues2 :
  issues1 <> [] -> issues2 <> [] ->
  _generate_suggestions lower (issues1 ++ issues2)
  = (_generate_suggestions lower issues1
     ++ _generate_suggestions lower issues2)%list.
Proof.
  intros H1 H2.
  destruct issues1 as [|a rest1]; [congruence|].
  destruct issues2 as [|b rest2]; [congruence|].
  change ((a :: rest1) ++ b :: rest2)%list with (a :: (rest1 ++ b :: rest2))%list.
  rewrite !generate_suggestions_cons. rewrite <- map_app. reflexivity.
Qed.

Lemma generate_suggestions_app_witness :
  _generate_suggestions ascii_lower (["Papel"] ++ ["polvo"; "otro"])
  = (_generate_suggestions ascii_lower ["Papel"]
     ++ _generate_suggestions ascii_lower ["polvo"; "otro"])%list.
Proof.
  apply (generate_suggestions_app ascii_lower ["Papel"] ["polvo"; "otro"]);
    discriminate.
Defined.

(** * Properties of the web client *)

(** ** The dashboard *)

Lemma count_estado_sum data :
  (DashboardPage.count_estado "clean" data
   + DashboardPage.count_estado "dirty" data
   + DashboardPage.count_estado "uncertain" data)%nat
  = List.length data.
Proof.
  unfold DashboardPage.count_estado.
  induction data as [|e rest IH]; simpl.
  - reflexivity.
  - destruct (CleaningEvent.estado (EventsRouter.event e)); simpl; lia.
Qed.

(** After [fetchEvents] the page is no longer loading, whatever the request
    gave.  On a response the three counters add up to the total, which is
    the number of events shown; on a failure the events and the counters
    are the ones from before and one line goes to the console. *)
Theorem fetchEvents_counters response st :
  let st' := fst (DashboardPage.fetchEvents response st) in
  DashboardPage.loading st' = false
  /\ match response with
     | Return data =>
         DashboardPage.events st' = data
         /\ DashboardPage.total (DashboardPage.stats st') = List.length data
         /\ (DashboardPage.clean (DashboardPage.stats st')
             + DashboardPage.dirty (DashboardPage.stats st')
             + DashboardPage.uncertain (DashboardPage.stats st'))%nat
            = DashboardPage.total (DashboardPage.stats st')
         /\ snd (DashboardPage.fetchEvents response st) = []
     | Raise _ =>
         DashboardPage.events st' = DashboardPage.events st
         /\ DashboardPage.stats st' = DashboardPage.stats st
         /\ List.length (snd (DashboardPage.fetchEvents response st)) = 1%nat
     end.
Proof.
  destruct response as [data|e]; simpl.
  - split; [reflexivity|]. split; [reflexivity|]. split; [reflexivity|].
    split; [apply count_estado_sum | reflexivity].
  - repeat split.
Qed.

(** The dashboard asks the backend for [limit=50]: whatever the tables
    hold, it shows at most 50 inspections, newest first, each of them an
    event of the table. *)
Theorem dashboard_shows_recent_events ilike d users st :
  let st' :=
    fst (DashboardPage.fetchEvents
           (Return (EventsRouter.list_events ilike DashboardPage.fetch_params
                                             d users))
           st) in
  (DashboardPage.total (DashboardPage.stats st') <= 50)%nat
  /\ StronglySorted EventsRouter.newest_first (DashboardPage.events st')
  /\ Forall (fun e => In (EventsRouter.event e) (DB.cleaning_events d))
            (DashboardPage.events st').
Proof.
  cbv zeta. cbn [DashboardPage.fetchEvents fst DashboardPage.events
                 DashboardPage.stats DashboardPage.total].
  split; [|split].
  - pose proof (list_events_length ilike DashboardPage.fetch_params d users)
      as H.
    cbn [DashboardPage.fetch_params EventsRouter.limit] in H. lia.
  - unfold EventsRouter.list_events.
    apply (StronglySorted_map EventsRouter.newest_first_rows).
    + intros [[e1 b1] u1] [[e2 b2] u2] Hrows. exact Hrows.
    + apply paged_rows_sorted.
  - apply Forall_forall. intros e He.
    apply list_events_In_rows in He.
    destruct He as [[[event bus] user] [-> Hrow]].
    apply apply_filters_In in Hrow. destruct Hrow as [Hjoin _].
    apply In_select_joined in Hjoin. cbn. tauto.
Qed.

(** The two pages colour a state alike: the class of the dashboard's badge
    is the class the inspection page gives, for every string; the three
    states have three different classes; and the fallback class is used
    exactly for the strings that are none of the three states. *)
Theorem badge_classes_agree (state : string) :
  fst (DashboardPage.getStateBadge state) = InspectionPage.getBadgeClass state
  /\ (forall a b : CleaningState,
        InspectionPage.getBadgeClass (CleaningState_value a)
        = InspectionPage.getBadgeClass (CleaningState_value b) -> a = b)
  /\ (InspectionPage.getBadgeClass state = "badge badge-info"
      <-> forall s : CleaningState, state <> CleaningState_value s).
Proof.
  split; [|split].
  - unfold DashboardPage.getStateBadge, InspectionPage.getBadgeClass.
    destruct (String.eqb state "clean"), (String.eqb state "dirty"),
             (String.eqb state "uncertain"); reflexivity.
  - intros [] []; simpl; intros H; (reflexivity || discriminate H).
  - unfold InspectionPage.getBadgeClass.
    destruct (String.eqb_spec state "clean") as [->|H1].
    { split; [discriminate|]. intros H. exfalso. apply (H CLEAN). reflexivity. }
    destruct (String.eqb_spec state "dirty") as [->|H2].
    { split; [discriminate|]. intros H. exfalso. apply (H DIRTY). reflexivity. }
    destruct (String.eqb_spec state "uncertain") as [->|H3].
    { split; [discriminate|]. intros H. exfalso. apply (H UNCERTAIN). reflexivity. }
    split; [|reflexivity]. intros _ []; simpl; assumption.
Qed.

(** ** The inspection page *)

(** [submitEvent] sends nothing unless a bus with a non-zero id is selected
    and an analysis is present, and in that case it leaves the state as it
    is.  Otherwise it sends exactly one body, for the selected bus, marked
    [edge], with empty observations sent as [null]; a success clears the
    analysis and the observations, a failure keeps both; and [submitting]
    is false at the end in every case. *)
Theorem submitEvent_outcomes api_post st :
  let r := InspectionPage.submitEvent api_post st in
  match InspectionPage.selectedBusId st, InspectionPage.analysis st with
  | Some bus_id, Some found =>
      if (bus_id =? 0)%Z then
        InspectionPage.posted r = [] /\ InspectionPage.state r = st
      else
        exists body,
          InspectionPage.posted r = [body]
          /\ CleaningEventCreate.bus_id body = bus_id
          /\ CleaningEventCreate.origen body = EDGE
          /\ CleaningEventCreate.observaciones body <> Some ""
          /\ InspectionPage.submitting (InspectionPage.state r) = false
          /\ match api_post body with
             | Return _ =>
                 InspectionPage.analysis (InspectionPage.state r) = None
                 /\ InspectionPage.observations (InspectionPage.state r) = ""
             | Raise _ =>
                 InspectionPage.analysis (InspectionPage.state r) = Some found
                 /\ InspectionPage.observations (InspectionPage.state r)
                    = InspectionPage.observations st
             end
  | _, _ => InspectionPage.posted r = [] /\ InspectionPage.state r = st
  end.
Proof.
  cbv zeta. unfold InspectionPage.submitEvent.
  destruct (InspectionPage.selectedBusId st) as [bus_id|] eqn:Hbus;
    [|split; reflexivity].
  destruct (InspectionPage.analysis st) as [found|] eqn:Hfound;
    [|split; reflexivity].
  cbn [InspectionPage.no_bus].
  destruct (bus_id =? 0)%Z; [split; reflexivity|].
  exists (InspectionPage.event_body bus_id found (InspectionPage.observations st)).
  destruct (api_post _) as [u|e];
    cbn [InspectionPage.posted InspectionPage.state InspectionPage.submitting
         InspectionPage.analysis InspectionPage.observations];
    (split; [reflexivity|]); (split; [reflexivity|]); (split; [reflexivity|]);
    (split; [destruct (InspectionPage.observations st); discriminate|]);
    (split; [reflexivity|]); split; reflexivity.
Qed.

(** From the analysis to the stored event: when the analysis shown on the
    inspection page is one [analyze_image] returned and the body built from
    it is accepted by [create_event], the stored event belongs to the
    authenticated user, is marked [edge], has the classifier's state and
    confidence, and carries the detected issues together with a non-empty
    list of suggestions, one per issue when there are issues. *)
Theorem analysis_to_stored_event
    lower ml_analyze_image image_base64 found bus_id observations
    isoformat svc env current_user d w event :
  analyze_image lower ml_analyze_image image_base64 = Return found ->
  run_request
    (create_event isoformat svc env
       (InspectionPage.event_body bus_id found observations) current_user) d
  = (w, Return event) ->
  In event (DB.cleaning_events (World.db w))
  /\ CleaningEvent.user_id event = User.id current_user
  /\ CleaningEvent.bus_id event = bus_id
  /\ CleaningEvent.origen event = EDGE
  /\ CleaningEvent.estado event = AnalysisResponse.estado found
  /\ CleaningEvent.confidence event = Some (AnalysisResponse.confidence found)
  /\ exists suggestions,
       CleaningEvent.issues event
       = Some (Issues.mk (Some (AnalysisResponse.issues found)) (Some suggestions))
       /\ suggestions <> []
       /\ (AnalysisResponse.issues found <> [] ->
           List.length suggestions = List.length (AnalysisResponse.issues found)).
Proof.
  intros Hanalysis Hrun.
  destruct (create_event_cases isoformat svc env
              (InspectionPage.event_body bus_id found observations)
              current_user d)
    as [[t [e [Hstop _]]] | [bus [Hbus Hcommit]]].
  { rewrite Hstop in Hrun. discriminate. }
  rewrite (create_event_found isoformat svc env _ current_user d bus
             Hbus Hcommit) in Hrun.
  injection Hrun as Hw Hevent. subst w event.
  cbn [World.db DB.cleaning_events].
  split; [apply in_or_app; right; left; reflexivity|].
  repeat (split; [reflexivity|]).
  unfold analyze_image in Hanalysis.
  destruct (ml_analyze_image image_base64) as [[[state confidence] issues]|e];
    [|discriminate].
  injection Hanalysis as <-.
  exists (_generate_suggestions lower issues).
  split; [reflexivity|].
  cbn [AnalysisResponse.issues].
  destruct issues as [|issue rest].
  - split; [discriminate | congruence].
  - rewrite generate_suggestions_cons.
    split; [discriminate|]. intros _. apply length_map.
Qed.

Lemma analysis_to_stored_event_witness :
  exists suggestions,
    CleaningEvent.issues
      (CleaningEvent.mk 1 7 3 DIRTY (Some (80 # 100)) (Some "piso mojado") None
         EDGE
         (Some (Issues.mk (Some ["Papel en el piso"; "Mancha"])
                  (Some ["Recoger y desechar basura del piso y asientos";
                         "Aplicar limpiador y frotar manchas con pa침o"])))
         1000)
    = Some (Issues.mk (Some ["Papel en el piso"; "Mancha"]) (Some suggestions))
    /\ suggestions <> []
    /\ List.length suggestions = 2%nat.
Proof.
  pose proof (analysis_to_stored_event ascii_lower
                (fun _ => Return (DIRTY, 80 # 100, ["Papel en el piso"; "Mancha"]))
                "aGVsbG8="
                (AnalysisResponse.mk DIRTY (80 # 100) ["Papel en el piso"; "Mancha"]
                   ["Recoger y desechar basura del piso y asientos";
                    "Aplicar limpiador y frotar manchas con pa침o"])
                7 "piso mojado"
                Sample.isoformat
                (AlertService.check_and_create_alerts Sample.settings)
                (Sample.quiet 1000) Sample.ana Sample.db0
                _ _ eq_refl eq_refl) as H.
  destruct H as [_ [_ [_ [_ [_ [_ [suggestions [Hissues [Hne Hlen]]]]]]]]].
  exists suggestions. split; [exact Hissues|]. split; [exact Hne|].
  apply Hlen. discriminate.
Defined.

(** ** The auth store, the login page and the routes *)

Lemma dispatch_all_invariant (P : AuthStore.Store -> Prop) :
  (forall s a, P s -> P (AuthStore.dispatch s a)) ->
  forall actions s, P s -> P (AuthStore.dispatch_all actions s).
Proof.
  intros Hstep actions. unfold AuthStore.dispatch_all.
  induction actions as [|a rest IH]; intros s Hs; simpl.
  - exact Hs.
  - apply IH. apply Hstep. exact Hs.
Qed.

(** Whatever sequence of logins (accepted or refused), logouts, [setUser]
    calls and page reloads the store has gone through since the first page
    load: it is authenticated exactly when it holds an access token; an
    authenticated store holds a user and a refresh token; and the
    [Authorization] header of the API client, when there is one, is
    ["Bearer "] followed by the stored access token.  The header can be
    missing from an authenticated store: a reload keeps the persisted state
    and leaves the API client without the header, so reloading right after
    an accepted login gives an authenticated store with no header. *)
Theorem auth_store_invariant actions :
  let s := AuthStore.dispatch_all actions AuthStore.initial in
  (AuthStore.isAuthenticated (AuthStore.state s) = true
   <-> AuthStore.accessToken (AuthStore.state s) <> None)
  /\ (AuthStore.isAuthenticated (AuthStore.state s) = true ->
      AuthStore.user (AuthStore.state s) <> None
      /\ AuthStore.refreshToken (AuthStore.state s) <> None)
  /\ (forall header,
        AuthStore.authorization s = Some header ->
        exists token,
          AuthStore.accessToken (AuthStore.state s) = Some token
          /\ header = "Bearer " ++ token)
  /\ (AuthStore.state (AuthStore.reload s) = AuthStore.state s
      /\ AuthStore.authorization (AuthStore.reload s) = None)
  /\ (forall credentials data now,
        let s' :=
          AuthStore.reload
            (fst (AuthStore.login credentials (Return data) now s)) in
        AuthStore.isAuthenticated (AuthStore.state s') = true
        /\ AuthStore.accessToken (AuthStore.state s')
           = Some (AuthStore.access_token data)
        /\ AuthStore.authorization s' = None).
Proof.
  cbv zeta.
  assert (Hinv :
    (AuthStore.isAuthenticated
       (AuthStore.state (AuthStore.dispatch_all actions AuthStore.initial)) = true
     <-> AuthStore.accessToken
           (AuthStore.state (AuthStore.dispatch_all actions AuthStore.initial))
         <> None)
    /\ (AuthStore.isAuthenticated
          (AuthStore.state (AuthStore.dispatch_all actions AuthStore.initial)) = true ->
        AuthStore.user
          (AuthStore.state (AuthStore.dispatch_all actions AuthStore.initial)) <> None
        /\ AuthStore.refreshToken
             (AuthStore.state (AuthStore.dispatch_all actions AuthStore.initial))
           <> None)
    /\ (forall header,
          AuthStore.authorization (AuthStore.dispatch_all actions AuthStore.initial)
          = Some header ->
          exists token,
            AuthStore.accessToken
              (AuthStore.state (AuthStore.dispatch_all actions AuthStore.initial))
            = Some token
            /\ header = "Bearer " ++ token)).
  { apply (dispatch_all_invariant
             (fun s =>
                (AuthStore.isAuthenticated (AuthStore.state s) = true
                 <-> AuthStore.accessToken (AuthStore.state s) <> None)
                /\ (AuthStore.isAuthenticated (AuthStore.state s) = true ->
                    AuthStore.user (AuthStore.state s) <> None
                    /\ AuthStore.refreshToken (AuthStore.state s) <> None)
                /\ (forall header,
                      AuthStore.authorization s = Some header ->
                      exists token,
                        AuthStore.accessToken (AuthStore.state s) = Some token
                        /\ header = "Bearer " ++ token))).
    - intros s [credentials [data|e] now | | u | ] [Hauth [Huser Hheader]]; simpl.
      + split; [split; [discriminate | reflexivity]|].
        split; [intros _; split; discriminate|].
        intros header H. injection H as <-. eexists. split; reflexivity.
      + tauto.
      + split; [split; [discriminate | congruence]|].
        split; discriminate.
      + split; [exact Hauth|].
        split; [|exact Hheader].
        intros H. split; [discriminate | apply Huser; exact H].
      + split; [exact Hauth|]. split; [exact Huser | discriminate].
    - simpl. split; [split; [discriminate | congruence]|].
      split; discriminate. }
  destruct Hinv as [Hauth [Huser Hheader]].
  split; [exact Hauth|]. split; [exact Huser|]. split; [exact Hheader|].
  split.
  - split; [|reflexivity].
    unfold AuthStore.reload, AuthStore.rehydrate, AuthStore.partialize.
    cbn [AuthStore.state AuthStore.user AuthStore.accessToken
         AuthStore.refreshToken AuthStore.isAuthenticated].
    destruct (AuthStore.state (AuthStore.dispatch_all actions AuthStore.initial));
      reflexivity.
  - intros credentials data now. simpl. repeat split.
Qed.

Lemma or_else_nonempty value fallback :
  fallback <> "" -> or_else value fallback <> "".
Proof.
  intros Hfallback. destruct value as [[|c s]|]; simpl;
    (exact Hfallback || discriminate).
Qed.

(** [handleSubmit] always ends with [loading] off.  A refused login leaves
    the auth store and the API header untouched, navigates nowhere and
    shows a non-empty error.  An accepted login clears the error, navigates
    to [/inspection] and leaves the store authenticated with the tokens of
    the response, the header set from the access token, and a user with the
    e-mail typed in the form, who is always given the id 1 and the role
    [ADMIN]. *)
Theorem handleSubmit_outcomes response now st s :
  let r := LoginPage.handleSubmit response now st s in
  LoginPage.loading (LoginPage.state r) = false
  /\ match response with
     | Raise _ =>
         LoginPage.store r = s
         /\ LoginPage.navigated r = []
         /\ LoginPage.error (LoginPage.state r) <> ""
     | Return data =>
         LoginPage.error (LoginPage.state r) = ""
         /\ LoginPage.navigated r = ["/inspection"]
         /\ AuthStore.isAuthenticated (AuthStore.state (LoginPage.store r)) = true
         /\ AuthStore.accessToken (AuthStore.state (LoginPage.store r))
            = Some (AuthStore.access_token data)
         /\ AuthStore.refreshToken (AuthStore.state (LoginPage.store r))
            = Some (AuthStore.refresh_token data)
         /\ AuthStore.authorization (LoginPage.store r)
            = Some ("Bearer " ++ AuthStore.access_token data)
         /\ exists u,
              AuthStore.user (AuthStore.state (LoginPage.store r)) = Some u
              /\ User.email u = LoginPage.email st
              /\ User.id u = 1 /\ User.rol u = ADMIN
     end.
Proof.
  destruct response as [data|e]; cbv zeta; simpl.
  - split; [reflexivity|]. repeat (split; [reflexivity|]).
    eexists. repeat split.
  - split; [reflexivity|]. split; [reflexivity|]. split; [reflexivity|].
    apply or_else_nonempty. discriminate.
Qed.

Lemma render_unauthenticated matchPath redirects :
  forall pathname layout page,
    App.render matchPath redirects false pathname = Some (layout, page) ->
    page = App.LoginPage /\ layout = false.
Proof.
  induction redirects as [|n IH]; intros pathname layout page; simpl;
    unfold App.route;
    destruct (matchPath "/login" pathname);
    try (intros H; injection H as <- <-; split; reflexivity);
    destruct (matchPath "/" pathname); try discriminate; try apply IH;
    destruct (matchPath "/inspection" pathname); try discriminate; try apply IH;
    destruct (matchPath "/dashboard" pathname); try discriminate; try apply IH.
Qed.

(** Without authentication the router shows no page but the login page,
    whatever the location, however the router matches paths and however
    many redirects it follows. *)
Theorem protected_pages_need_authentication
    matchPath redirects pathname layout page :
  App.render matchPath redirects false pathname = Some (layout, page) ->
  page = App.LoginPage /\ layout = false.
Proof.
  revert pathname layout page.
  induction redirects as [|n IH]; intros pathname layout page; simpl;
    unfold App.route;
    destruct (matchPath "/login" pathname);
    try (intros H; injection H as <- <-; split; reflexivity);
    destruct (matchPath "/" pathname); try discriminate; try apply IH;
    destruct (matchPath "/inspection" pathname); try discriminate; try apply IH;
    destruct (matchPath "/dashboard" pathname); try discriminate; try apply IH.
Qed.

Lemma protected_pages_need_authentication_witness :
  App.render String.eqb 1 false "/dashboard" = Some (false, App.LoginPage)
  /\ App.LoginPage = App.LoginPage /\ false = false.
Proof.
  split; [reflexivity|].
  apply (protected_pages_need_authentication String.eqb 1 "/dashboard"
           false App.LoginPage).
  reflexivity.
Defined.

(** [handleLogout] empties the store and the API header whatever they
    held, and sends the browser to [/login], where the login page is
    shown; from then on no location shows another page. *)
Theorem handleLogout_returns_to_login matchPath s :
  matchPath "/login" "/login" = true ->
  let s' := fst (Layout.handleLogout s) in
  let location := snd (Layout.handleLogout s) in
  s' = AuthStore.initial
  /\ App.render matchPath 0
       (AuthStore.isAuthenticated (AuthStore.state s')) location
     = Some (false, App.LoginPage)
  /\ forall redirects pathname layout page,
       App.render matchPath redirects
         (AuthStore.isAuthenticated (AuthStore.state s')) pathname
       = Some (layout, page) ->
       page = App.LoginPage.
Proof.
  intros Hmatch. cbv zeta. simpl.
  split; [reflexivity|]. split.
  - unfold App.route. rewrite Hmatch. reflexivity.
  - intros redirects pathname layout page H.
    apply render_unauthenticated in H. tauto.
Qed.

Lemma handleLogout_returns_to_login_witness :
  fst (Layout.handleLogout
         (fst (AuthStore.login
                 (AuthStore.mkCredentials "ana@example.org" "secret")
                 (Return (AuthStore.mkTokens "abc" "def" "bearer")) 1000
                 AuthStore.initial)))
  = AuthStore.initial
  /\ App.render String.eqb 0 false "/login" = Some (false, App.LoginPage).
Proof.
  pose proof (handleLogout_returns_to_login String.eqb
                (fst (AuthStore.login
                        (AuthStore.mkCredentials "ana@example.org" "secret")
                        (Return (AuthStore.mkTokens "abc" "def" "bearer")) 1000
                        AuthStore.initial))
                eq_refl) as H.
  cbv zeta in H. destruct H as [Hstore [Hrender _]].
  split; [exact Hstore | exact Hrender].
Defined.

(** After an accepted login the location [handleSubmit] navigates to shows
    the inspection page inside the layout, as soon as the router tells the
    paths of the table apart. *)
Theorem accepted_login_opens_inspection matchPath data now st s :
  matchPath "/login" "/inspection" = false ->
  matchPath "/" "/inspection" = false ->
  matchPath "/inspection" "/inspection" = true ->
  let r := LoginPage.handleSubmit (Return data) now st s in
  Forall (fun location =>
            App.render matchPath 0
              (AuthStore.isAuthenticated (AuthStore.state (LoginPage.store r)))
              location
            = Some (true, App.InspectionPage))
         (LoginPage.navigated r)
  /\ LoginPage.navigated r <> [].
Proof.
  intros H1 H2 H3. cbv zeta. simpl. split; [|discriminate].
  constructor; [|constructor].
  unfold App.route. rewrite H1, H2, H3. reflexivity.
Qed.

Lemma accepted_login_opens_inspection_witness :
  Forall (fun location =>
            App.render String.eqb 0 true location
            = Some (true, App.InspectionPage))
         ["/inspection"]
  /\ ["/inspection"] <> [].
Proof.
  apply (accepted_login_opens_inspection String.eqb
           (AuthStore.mkTokens "abc" "def" "bearer") 1000
           (LoginPage.mkState "ana@example.org" "secret" "" false)
           AuthStore.initial);
    reflexivity.
Defined.
